(** * The streaming chat core of [ChatInterface.tsx]

    A shallow embedding of the notification queue ([addToast],
    [removeToast]), the error classifier ([parseErrorMessage]) and the
    submit handler ([handleSubmit], [clearChat]) of
    [frontend/src/components/ChatInterface.tsx], with the properties the
    specification states about them.

    Conventions of the embedding.
    - A JavaScript string is a [string]: a sequence of code units in the
      range 0..255, read as the code points U+0000..U+00FF.  Case
      conversion and white space are those of ECMAScript on that range.
    - React state is a record; a setter call is a record update, applied
      in program order (functional updates see the latest state).
    - What the environment decides (the clock read by [Date.now()], the
      outcome of [fetch], the parsed body, the chunks of the stream, the
      text the engine puts in a [TypeError]) is an explicit argument. *)

From Stdlib Require Import Bool Arith ZArith List Lia.
From Stdlib Require Import Ascii String DecimalString.
From Stdlib Require Decimal DecimalPos DecimalZ Finite.
Import ListNotations.

Local Open Scope string_scope.
Local Open Scope list_scope.

(** ** JavaScript strings *)

Module JsString.

(** [String.prototype.toLowerCase] on one code unit below 256:
    A-Z and the Latin-1 capitals U+00C0..U+00DE (but not U+00D7)
    move up by 32, every other unit is its own lower case. *)
Definition toLowerCaseChar (c : ascii) : ascii :=
  let n := nat_of_ascii c in
  if (((65 <=? n) && (n <=? 90))
      || ((192 <=? n) && (n <=? 214))
      || ((216 <=? n) && (n <=? 222)))%nat
  then ascii_of_nat (n + 32)
  else c.

Fixpoint toLowerCase (s : string) : string :=
  match s with
  | EmptyString => EmptyString
  | String c t => String (toLowerCaseChar c) (toLowerCase t)
  end.

(** [s.startsWith(p)] *)
Fixpoint startsWith (s p : string) : bool :=
  match p, s with
  | EmptyString, _ => true
  | String _ _, EmptyString => false
  | String a p', String b s' => Ascii.eqb a b && startsWith s' p'
  end.

(** [s.includes(sub)]: [sub] occurs at some offset of [s]. *)
Fixpoint includes (s sub : string) : bool :=
  startsWith s sub
  || match s with
     | EmptyString => false
     | String _ t => includes t sub
     end.

(** ECMAScript WhiteSpace and LineTerminator code points below 256:
    TAB, LF, VT, FF, CR, SP and NBSP. *)
Definition isWhiteSpace (c : ascii) : bool :=
  let n := nat_of_ascii c in
  (((9 <=? n) && (n <=? 13)) || (n =? 32) || (n =? 160))%nat.

Fixpoint trimStart (s : string) : string :=
  match s with
  | EmptyString => EmptyString
  | String c t => if isWhiteSpace c then trimStart t else s
  end.

(** [trimEnd] drops the white space that nothing but white space
    follows. *)
Fixpoint trimEnd (s : string) : string :=
  match s with
  | EmptyString => EmptyString
  | String c t =>
      match trimEnd t with
      | EmptyString => if isWhiteSpace c then EmptyString
                       else String c EmptyString
      | t' => String c t'
      end
  end.

Definition trim (s : string) : string := trimEnd (trimStart s).

(** Truthiness of a string: only the empty string is falsy. *)
Definition truthy (s : string) : bool :=
  match s with
  | EmptyString => false
  | String _ _ => true
  end.

(** [Number.prototype.toString] on an integer (decimal digits, a
    leading minus sign when negative). *)
Definition ofInt (n : Z) : string := NilZero.string_of_int (Z.to_int n).

Fixpoint allWhiteSpace (s : string) : bool :=
  match s with
  | EmptyString => true
  | String c t => isWhiteSpace c && allWhiteSpace t
  end.

(** Concatenation of a list of strings, in order. *)
Fixpoint concatAll (l : list string) : string :=
  match l with
  | [] => EmptyString
  | x :: r => (x ++ concatAll r)%string
  end.

End JsString.
Import JsString.

(** ** JavaScript values

    The values that reach the handler from outside: what
    [response.json()] decodes and what a rejected promise carries.
    [JObject d] is an object that is not an [Error]; [d] is the value of
    its [detail] property ([JUndefined] when it has none, as for an
    array). Numbers are integers here: only their being zero or not and
    their decimal text are looked at. *)

Inductive jsval : Type :=
| JUndefined
| JNull
| JBool (b : bool)
| JNum (n : Z)
| JStr (s : string)
| JError (message : string)
| JObject (detail : jsval).

(** ToBoolean *)
Definition truthyVal (v : jsval) : bool :=
  match v with
  | JUndefined | JNull => false
  | JBool b => b
  | JNum n => negb (n =? 0)%Z
  | JStr s => truthy s
  | JError _ | JObject _ => true
  end.

(** [a || b] on values *)
Definition orElse (a b : jsval) : jsval := if truthyVal a then a else b.

(** [v?.detail]: [undefined] on [null] and [undefined], the property
    otherwise (primitives and [Error]s have no [detail]). *)
Definition optDetail (v : jsval) : jsval :=
  match v with
  | JObject d => d
  | _ => JUndefined
  end.

(** [String(v)] *)
Definition toStr (v : jsval) : string :=
  match v with
  | JUndefined => "undefined"
  | JNull => "null"
  | JBool true => "true"
  | JBool false => "false"
  | JNum n => ofInt n
  | JStr s => s
  | JError m => ("Error: " ++ m)%string
  | JObject _ => "[object Object]"
  end.

(** The text of the [TypeError]s the engine raises at the two places
    where the handler can hit one: reading [.detail] of [null], and
    calling [.toLowerCase] on a value that has no such method. *)
Record Engine : Type := {
  msgNullProperty : string;
  msgNotAFunction : string
}.

(** The messages of V8 (Chrome, Node). *)
Definition V8 : Engine := {|
  msgNullProperty := "Cannot read properties of null (reading 'detail')";
  msgNotAFunction := "errorString.toLowerCase is not a function"
|}.

(** Outcome of an expression that may throw. *)
Inductive completion (A : Type) : Type :=
| Normal (a : A)
| Throw (e : jsval).
Arguments Normal {A} a.
Arguments Throw {A} e.

(** ** Data model *)

Inductive Role : Type := user | assistant.

Record ChatMessage : Type := {
  role : Role;
  content : string
}.

(** [Toast["type"]] *)
Inductive ToastType : Type := TError | TSuccess | TWarning | TInfo.

Module Toast.
Record t : Type := {
  id : string;
  message : string;
  type : ToastType
}.
End Toast.

(** The [useState] cells of [ChatInterface]. *)
Record State : Type := {
  messages : list ChatMessage;
  userMessage : string;
  developerMessage : string;
  apiKey : string;
  model : string;
  isLoading : bool;
  error : string;
  toasts : list Toast.t
}.

Definition setMessages (f : list ChatMessage -> list ChatMessage) (s : State) : State :=
  {| messages := f (messages s); userMessage := userMessage s;
     developerMessage := developerMessage s; apiKey := apiKey s;
     model := model s; isLoading := isLoading s; error := error s;
     toasts := toasts s |}.

Definition setUserMessage (v : string) (s : State) : State :=
  {| messages := messages s; userMessage := v;
     developerMessage := developerMessage s; apiKey := apiKey s;
     model := model s; isLoading := isLoading s; error := error s;
     toasts := toasts s |}.

Definition setIsLoading (v : bool) (s : State) : State :=
  {| messages := messages s; userMessage := userMessage s;
     developerMessage := developerMessage s; apiKey := apiKey s;
     model := model s; isLoading := v; error := error s;
     toasts := toasts s |}.

Definition setError (v : string) (s : State) : State :=
  {| messages := messages s; userMessage := userMessage s;
     developerMessage := developerMessage s; apiKey := apiKey s;
     model := model s; isLoading := isLoading s; error := v;
     toasts := toasts s |}.

Definition setToasts (f : list Toast.t -> list Toast.t) (s : State) : State :=
  {| messages := messages s; userMessage := userMessage s;
     developerMessage := developerMessage s; apiKey := apiKey s;
     model := model s; isLoading := isLoading s; error := error s;
     toasts := f (toasts s) |}.

(** The state of a freshly mounted component. *)
Definition initialState : State := {|
  messages := []; userMessage := ""; developerMessage := ""; apiKey := "";
  model := "gpt-4.1-mini"; isLoading := false; error := ""; toasts := []
|}.

(** ** Notification queue *)

(** [addToast(message, type)]; [now] is what [Date.now()] returns. *)
Definition addToast (now : Z) (message : string) (type : ToastType) (s : State) : State :=
  let id := ofInt now in
  setToasts (fun prev => prev ++ [ {| Toast.id := id; Toast.message := message; Toast.type := type |} ]) s.

(** [removeToast(id)] *)
Definition removeToast (id : string) (s : State) : State :=
  setToasts (fun prev => filter (fun toast => negb (String.eqb (Toast.id toast) id)) prev) s.

(** ** Error classifier *)

(** The [errorString] that [parseErrorMessage] computes first. It is a
    string except when [error] is an object whose [detail] is truthy and
    not a string. *)
Definition errorStringOf (error : jsval) : jsval :=
  match error with
  | JError m => JStr m
  | JStr s => JStr s
  | _ => orElse (optDetail error) (JStr "Unknown error occurred")
  end.

(** The chain of [if]s of [parseErrorMessage] once [errorString] is a
    string. *)
Definition classifyText (errorString : string) (status : option Z) : string * ToastType :=
  let lower := toLowerCase errorString in
  let statusIs (n : Z) := match status with Some k => (k =? n)%Z | None => false end in
  if statusIs 401%Z || includes lower "unauthorized" || includes lower "invalid api key" then
    ("Invalid API key. Please check your OpenAI API key and try again.", TError)
  else if statusIs 429%Z || includes lower "rate limit" || includes lower "quota" then
    ("Rate limit exceeded or insufficient quota. Please check your OpenAI account.", TWarning)
  else if statusIs 400%Z || includes lower "bad request" then
    ("Invalid request. Please check your input and selected model.", TError)
  else if statusIs 404%Z || includes lower "not found" then
    ("Model not found. Please select a different model.", TError)
  else if statusIs 500%Z || includes lower "internal server error" then
    ("OpenAI service is temporarily unavailable. Please try again later.", TError)
  else if includes lower "network" || includes lower "fetch" then
    ("Network error. Please check your internet connection and try again.", TError)
  else
    (("Error: " ++ errorString)%string, TError).

(** [parseErrorMessage(error, status)]. When [errorString] is not a
    string, [status === 401] still short-circuits the first test; any
    other status reaches [errorString.toLowerCase()], which throws. *)
Definition parseErrorMessage (engine : Engine) (error : jsval) (status : option Z)
  : completion (string * ToastType) :=
  match errorStringOf error with
  | JStr errorString => Normal (classifyText errorString status)
  | _ =>
      match status with
      | Some 401%Z =>
          Normal ("Invalid API key. Please check your OpenAI API key and try again.", TError)
      | _ => Throw (JError (msgNotAFunction engine))
      end
  end.

(** ** The environment of one exchange *)

(** The JSON body that [handleSubmit] posts to [/api/chat]. *)
Module Request.
Record t : Type := {
  developer_message : string;
  user_message : string;
  model : string;
  api_key : string
}.
End Request.

(** How the body stream ends: [reader.read()] reports [done], or its
    promise rejects with [streamError]. *)
Inductive StreamEnd : Type :=
| Done
| ReadFails (streamError : jsval).

(** The body stream as the read loop sees it: the text that
    [decoder.decode(value, { stream: true })] gives for each successive
    read, in arrival order, then the way the stream ends. *)
Record Stream : Type := {
  chunks : list string;
  ending : StreamEnd
}.

(** A [Response]. [json] is what [response.json()] resolves to ([None]
    when it rejects); [body] is [None] when [response.body] is [null]. *)
Module Response.
Record t : Type := {
  status : Z;
  statusText : string;
  json : option jsval;
  body : option Stream
}.
(** [response.ok]: the status is in the range 200-299. *)
Definition ok (r : t) : bool := ((200 <=? status r) && (status r <=? 299))%Z.
End Response.

(** [fetch] rejects with an [Error] (a [TypeError] or an [AbortError])
    or resolves to a response. *)
Inductive FetchOutcome : Type :=
| Rejects (message : string)
| Resolves (response : Response.t).

(** Everything one run of [handleSubmit] takes from outside: the reading
    of [Date.now()] when it pushes its notification, the engine, and the
    outcome of the request. *)
Record Env : Type := {
  now : Z;
  engine : Engine;
  fetched : FetchOutcome
}.

(** ** The submit handler *)

(** [!text.trim()] *)
Definition isBlank (text : string) : bool := negb (truthy (trim text)).

(** [prev.slice(0, -1)] *)
Definition dropLast (s : State) : State := setMessages (fun prev => removelast prev) s.

(** The functional update of the read loop:
    [updated[updated.length - 1] = { ...updated[updated.length - 1], content }].
    On an empty array the assignment sets the property [-1] and adds no
    element. *)
Fixpoint updateLast (assistantContent : string) (prev : list ChatMessage) : list ChatMessage :=
  match prev with
  | [] => []
  | [m] => [ {| role := role m; content := assistantContent |} ]
  | m :: rest => m :: updateLast assistantContent rest
  end.

(** [addToast(message, type); setError(message)] on a classifier result. *)
Definition report (now : Z) (verdict : string * ToastType) (s : State) : State :=
  setError (fst verdict) (addToast now (fst verdict) (snd verdict) s).

(** How a block of statements is left. *)
Inductive flow : Type :=
| Fallthrough (s : State)
| Returned (s : State)
| Thrown (e : jsval) (s : State).

(** The synchronous head of [handleSubmit], up to the call of [fetch]:
    the two validations, then the state updates and the request. *)
Definition requestOf (s : State) : Request.t := {|
  Request.developer_message :=
    if truthy (developerMessage s) then developerMessage s
    else "You are a helpful assistant.";
  Request.user_message := userMessage s;
  Request.model := model s;
  Request.api_key := apiKey s
|}.

Definition submitHead (now : Z) (s : State) : State * option Request.t :=
  if isBlank (apiKey s) then
    (addToast now "Please enter your OpenAI API key" TWarning s, None)
  else if isBlank (userMessage s) then
    (addToast now "Please enter a message" TWarning s, None)
  else
    let s1 := setError "" s in
    let s2 := setIsLoading true s1 in
    let newUserMessage := {| role := user; content := userMessage s |} in
    (setMessages (fun prev => prev ++ [newUserMessage]) s2, Some (requestOf s)).

(** [errorData]: the decoded body, or the synthesized one when
    [response.json()] rejects. *)
Definition errorDataOf (r : Response.t) : jsval :=
  match Response.json r with
  | Some v => v
  | None =>
      JObject (JStr ("HTTP " ++ ofInt (Response.status r) ++ ": " ++ Response.statusText r)%string)
  end.

(** [errorData.detail]: a [TypeError] on [null] and [undefined]. *)
Definition getDetail (engine : Engine) (v : jsval) : completion jsval :=
  match v with
  | JNull | JUndefined => Throw (JError (msgNullProperty engine))
  | _ => Normal (optDetail v)
  end.

(** The branch [if (!response.ok) { ... return; }]. *)
Definition onNotOk (env : Env) (r : Response.t) (s : State) : flow :=
  let errorData := errorDataOf r in
  match getDetail (engine env) errorData with
  | Throw e => Thrown e s
  | Normal detail =>
      match parseErrorMessage (engine env) (orElse detail errorData) (Some (Response.status r)) with
      | Throw e => Thrown e s
      | Normal verdict => Returned (dropLast (report (now env) verdict s))
      end
  end.

(** One turn of the read loop on a chunk. *)
Definition onChunk (assistantContent chunk : string) (s : State) : string * State :=
  let assistantContent' := (assistantContent ++ chunk)%string in
  (assistantContent', setMessages (updateLast assistantContent') s).

(** The read loop over the chunks that arrive before the stream ends:
    the accumulated text and the state after the last of them. *)
Fixpoint readLoop (chunks : list string) (assistantContent : string) (s : State) : string * State :=
  match chunks with
  | [] => (assistantContent, s)
  | chunk :: rest =>
      let (assistantContent', s') := onChunk assistantContent chunk s in
      readLoop rest assistantContent' s'
  end.

(** The state after each turn of the read loop, in order. *)
Fixpoint readTrace (chunks : list string) (assistantContent : string) (s : State) : list State :=
  match chunks with
  | [] => []
  | chunk :: rest =>
      let (assistantContent', s') := onChunk assistantContent chunk s in
      s' :: readTrace rest assistantContent' s'
  end.

(** After the loop, when [read()] reports [done]. *)
Definition onStreamDone (env : Env) (assistantContent : string) (s : State) : flow :=
  if truthy (trim assistantContent) then
    Fallthrough (addToast (now env) "Message sent successfully!" TSuccess s)
  else
    match parseErrorMessage (engine env)
            (JStr "No response received from AI. This usually indicates an invalid API key or authentication issue.")
            (Some 401%Z) with
    | Throw e => Thrown e s
    | Normal verdict => Returned (dropLast (report (now env) verdict s))
    end.

(** The handler [catch (streamError) { ... return; }] of the read loop. *)
Definition onStreamError (env : Env) (streamError : jsval) (s : State) : flow :=
  let errorMessage :=
    match streamError with
    | JError m => m
    | _ => toStr streamError
    end in
  let lower := toLowerCase errorMessage in
  let finalError :=
    if includes lower "connection" || includes lower "network" || includes lower "chunk" then
      JStr "Connection failed while reading AI response. This usually indicates an invalid API key or authentication issue. Please check your OpenAI API key."
    else streamError in
  match parseErrorMessage (engine env) finalError (Some 401%Z) with
  | Throw e => Thrown e s
  | Normal verdict => Returned (dropLast (report (now env) verdict s))
  end.

(** What follows the loop. *)
Definition afterLoop (env : Env) (ending : StreamEnd) (assistantContent : string) (s : State) : flow :=
  match ending with
  | Done => onStreamDone env assistantContent s
  | ReadFails streamError => onStreamError env streamError s
  end.

(** [setMessages(prev => [...prev, assistantMessage])] *)
Definition addPlaceholder (s : State) : State :=
  setMessages (fun prev => prev ++ [ {| role := assistant; content := "" |} ]) s.

(** The [try] block from the settling of [fetch] on. Without a reader
    ([response.body] is [null]) the block [if (reader) { ... }] is
    skipped. *)
Definition tryBlock (env : Env) (s : State) : flow :=
  match fetched env with
  | Rejects message => Thrown (JError message) s
  | Resolves response =>
      if negb (Response.ok response) then onNotOk env response s
      else
        let s1 := addPlaceholder s in
        match Response.body response with
        | Some stream =>
            let (assistantContent, s2) := readLoop (chunks stream) "" s1 in
            afterLoop env (ending stream) assistantContent s2
        | None => Fallthrough s1
        end
  end.

(** The end of the [try] statement: [setUserMessage("")] closes the
    [try] block when it was not left early, the [catch] clause handles
    what was thrown, and [finally] runs in every case. The second
    component is the exception that leaves the handler, if any. *)
Definition settle (env : Env) (f : flow) : State * option jsval :=
  match f with
  | Fallthrough s => (setIsLoading false (setUserMessage "" s), None)
  | Returned s => (setIsLoading false s, None)
  | Thrown e s =>
      match parseErrorMessage (engine env) e None with
      | Normal verdict => (setIsLoading false (dropLast (report (now env) verdict s)), None)
      | Throw e' => (setIsLoading false s, Some e')
      end
  end.

(** What one call of [handleSubmit] does. *)
Record Outcome : Type := {
  final : State;
  requests : list Request.t;
  partials : list State;
  uncaught : option jsval
}.

(** The states set by the read loop, one per chunk. *)
Definition streamStates (env : Env) (s : State) : list State :=
  match fetched env with
  | Resolves response =>
      if Response.ok response then
        match Response.body response with
        | Some stream => readTrace (chunks stream) "" (addPlaceholder s)
        | None => []
        end
      else []
  | Rejects _ => []
  end.

(** [handleSubmit], run to its end against [env]. *)
Definition handleSubmit (env : Env) (s : State) : Outcome :=
  match submitHead (now env) s with
  | (s', None) => {| final := s'; requests := []; partials := []; uncaught := None |}
  | (s', Some request) =>
      let (s'', escaped) := settle env (tryBlock env s') in
      {| final := s''; requests := [request];
         partials := streamStates env s'; uncaught := escaped |}
  end.

(** [clearChat] *)
Definition clearChat (now : Z) (s : State) : State :=
  addToast now "Chat cleared" TInfo (setError "" (setMessages (fun _ => []) s)).

(** ** The component as an event system

    [handleSubmit] is an [async] function: it is suspended at
    [await fetch(...)] and at every [await reader.read()], and other
    events of the page run in between. A suspended call is a [Pending]
    value that holds what it still has to receive. The two awaits of the
    failure branch ([fetch], then [response.json()]) are taken in one
    step: the handler changes no state between them. *)

Inductive Pending : Type :=
| AwaitFetch (env : Env)
| AwaitRead (env : Env) (assistantContent : string) (rest : list string) (ending : StreamEnd).

(** Run a suspended call to its next await, or to its end. *)
Definition resume (p : Pending) (s : State) : State * option Pending :=
  match p with
  | AwaitFetch env =>
      match fetched env with
      | Resolves response =>
          if Response.ok response then
            match Response.body response with
            | Some stream =>
                (addPlaceholder s, Some (AwaitRead env "" (chunks stream) (ending stream)))
            | None => (fst (settle env (tryBlock env s)), None)
            end
          else (fst (settle env (tryBlock env s)), None)
      | Rejects _ => (fst (settle env (tryBlock env s)), None)
      end
  | AwaitRead env assistantContent (chunk :: rest) ending =>
      let (assistantContent', s') := onChunk assistantContent chunk s in
      (s', Some (AwaitRead env assistantContent' rest ending))
  | AwaitRead env assistantContent [] ending =>
      (fst (settle env (afterLoop env ending assistantContent s)), None)
  end.

(** The component, the calls of [handleSubmit] that are suspended, and
    the requests sent so far. *)
Record Config : Type := {
  state : State;
  pending : list Pending;
  sent : list Request.t
}.

Definition initialConfig : Config :=
  {| state := initialState; pending := []; sent := [] |}.

Definition withState (f : State -> State) (c : Config) : Config :=
  {| state := f (state c); pending := pending c; sent := sent c |}.

(** A call of [handleSubmit]: its synchronous head runs at once, the
    rest is suspended on the request. *)
Definition callHandleSubmit (env : Env) (c : Config) : Config :=
  match submitHead (now env) (state c) with
  | (s', None) => {| state := s'; pending := pending c; sent := sent c |}
  | (s', Some request) =>
      {| state := s'; pending := pending c ++ [AwaitFetch env];
         sent := sent c ++ [request] |}
  end.

(** The [disabled] attribute of the Send button. *)
Definition sendDisabled (s : State) : bool :=
  isLoading s || isBlank (userMessage s) || isBlank (apiKey s).

(** Submitting the form: a form whose submit button is disabled is not
    submitted, by a click or by the Enter key. *)
Definition formSubmit (env : Env) (c : Config) : Config :=
  if sendDisabled (state c) then c else callHandleSubmit env c.

(** Resume the [k]-th suspended call. *)
Fixpoint resumeAt (k : nat) (ps : list Pending) (s : State) : State * list Pending :=
  match ps, k with
  | [], _ => (s, [])
  | p :: rest, O =>
      let (s', next) := resume p s in
      (s', match next with Some q => q :: rest | None => rest end)
  | p :: rest, S k' =>
      let (s', rest') := resumeAt k' rest s in
      (s', p :: rest')
  end.

Inductive Event : Type :=
| Submit (env : Env)
| Resume (k : nat)
| Clear (now : Z)
| Dismiss (id : string)
| TypeMessage (value : string)
| TypeApiKey (value : string)
| SelectModel (value : string)
| TypeSystemMessage (value : string).

Definition setApiKey (v : string) (s : State) : State :=
  {| messages := messages s; userMessage := userMessage s;
     developerMessage := developerMessage s; apiKey := v;
     model := model s; isLoading := isLoading s; error := error s;
     toasts := toasts s |}.

Definition setModel (v : string) (s : State) : State :=
  {| messages := messages s; userMessage := userMessage s;
     developerMessage := developerMessage s; apiKey := apiKey s;
     model := v; isLoading := isLoading s; error := error s;
     toasts := toasts s |}.

Definition setDeveloperMessage (v : string) (s : State) : State :=
  {| messages := messages s; userMessage := userMessage s;
     developerMessage := v; apiKey := apiKey s;
     model := model s; isLoading := isLoading s; error := error s;
     toasts := toasts s |}.

(** One event of the rendered page. The message input carries
    [disabled={isLoading}]; the Clear button and the other inputs are
    always enabled. A toast is dismissed by its close button or by its
    5 second timer, both through [removeToast]. *)
Definition step (c : Config) (ev : Event) : Config :=
  match ev with
  | Submit env => formSubmit env c
  | Resume k =>
      let (s', ps') := resumeAt k (pending c) (state c) in
      {| state := s'; pending := ps'; sent := sent c |}
  | Clear now => withState (clearChat now) c
  | Dismiss id => withState (removeToast id) c
  | TypeMessage v =>
      if isLoading (state c) then c else withState (setUserMessage v) c
  | TypeApiKey v => withState (setApiKey v) c
  | SelectModel v => withState (setModel v) c
  | TypeSystemMessage v => withState (setDeveloperMessage v) c
  end.

Definition run (evs : list Event) (c : Config) : Config := fold_left step evs c.

(** The configurations the page can be in. *)
Inductive reachable : Config -> Prop :=
| reachable_init : reachable initialConfig
| reachable_step c ev : reachable c -> reachable (step c ev).

(** ** The classification rules as the specification lists them *)

Module Spec.

(** Two code units that differ at most by case. *)
Definition sameLetter (a b : ascii) : bool :=
  Ascii.eqb (toLowerCaseChar a) (toLowerCaseChar b).

(** [phrase] is at the head of [text], up to case. *)
Fixpoint headIs (text phrase : string) : bool :=
  match phrase, text with
  | EmptyString, _ => true
  | String _ _, EmptyString => false
  | String a phrase', String b text' => sameLetter a b && headIs text' phrase'
  end.

(** [text] contains [phrase], up to case. *)
Fixpoint contains (text phrase : string) : bool :=
  headIs text phrase
  || match text with
     | EmptyString => false
     | String _ text' => contains text' phrase
     end.

(** A rule: the status it answers to (if any), the phrases it looks
    for, and what it yields. *)
Record Rule : Type := {
  code : option Z;
  phrases : list string;
  yields : string * ToastType
}.

Definition rules : list Rule := [
  {| code := Some 401%Z; phrases := ["unauthorized"; "invalid api key"];
     yields := ("Invalid API key. Please check your OpenAI API key and try again.", TError) |};
  {| code := Some 429%Z; phrases := ["rate limit"; "quota"];
     yields := ("Rate limit exceeded or insufficient quota. Please check your OpenAI account.", TWarning) |};
  {| code := Some 400%Z; phrases := ["bad request"];
     yields := ("Invalid request. Please check your input and selected model.", TError) |};
  {| code := Some 404%Z; phrases := ["not found"];
     yields := ("Model not found. Please select a different model.", TError) |};
  {| code := Some 500%Z; phrases := ["internal server error"];
     yields := ("OpenAI service is temporarily unavailable. Please try again later.", TError) |};
  {| code := None; phrases := ["network"; "fetch"];
     yields := ("Network error. Please check your internet connection and try again.", TError) |}
].

Definition applies (text : string) (status : option Z) (r : Rule) : bool :=
  match code r, status with
  | Some c, Some k => (k =? c)%Z
  | _, _ => false
  end
  || existsb (contains text) (phrases r).

(** First match wins; the default keeps the original text. *)
Definition classify (text : string) (status : option Z) : string * ToastType :=
  match find (applies text status) rules with
  | Some r => yields r
  | None => (("Error: " ++ text)%string, TError)
  end.


(** What a status alone would yield, were the status rules read
    without the phrases of the rules before them. *)
Definition byStatus (status : Z) : option (string * ToastType) :=
  match find (fun r => match code r with
                       | Some c => (status =? c)%Z
                       | None => false
                       end) rules with
  | Some r => Some (yields r)
  | None => None
  end.

End Spec.

(** ** Vocabulary of the statements *)

(** Both required fields hold more than white space. *)
Definition validInputs (s : State) : bool :=
  negb (isBlank (apiKey s)) && negb (isBlank (userMessage s)).

(** The state in which a valid submit leaves the component when it
    calls [fetch]. *)
Definition started (s : State) : State :=
  setMessages (fun prev => prev ++ [ {| role := user; content := userMessage s |} ])
    (setIsLoading true (setError "" s)).

(** The last message of the conversation, if any. *)
Definition trailing (s : State) : option ChatMessage :=
  match rev (messages s) with
  | [] => None
  | m :: _ => Some m
  end.

(** The (message, severity) pair a notification shows. *)
Definition shows (t : Toast.t) : string * ToastType := (Toast.message t, Toast.type t).

(** An assistant message without content. *)
Definition isEmptyAssistant (m : ChatMessage) : bool :=
  match role m, content m with
  | assistant, EmptyString => true
  | _, _ => false
  end.

(** The text that the failure branch hands to the rules, when there is
    one: [errorData] is not [null] and [errorData.detail || errorData]
    has a textual content. *)
Definition errorTextOf (r : Response.t) : option string :=
  match errorDataOf r with
  | JNull | JUndefined => None
  | errorData =>
      match errorStringOf (orElse (optDetail errorData) errorData) with
      | JStr text => Some text
      | _ => None
      end
  end.

(** The number of awaits a call goes through before it ends. *)
Definition awaits (env : Env) : nat :=
  match fetched env with
  | Resolves response =>
      if Response.ok response then
        match Response.body response with
        | Some stream => S (S (List.length (chunks stream)))
        | None => 1
        end
      else 1
  | Rejects _ => 1
  end.

(** The verdict of the first rule. *)
Definition invalidApiKey : string * ToastType :=
  ("Invalid API key. Please check your OpenAI API key and try again.", TError).

(** The state at the end of the read loop of a valid submit whose
    stream delivered [cs]. *)
Definition streamed (cs : list string) (s : State) : State :=
  setMessages
    (fun _ => (messages s ++ [ {| role := user; content := userMessage s |} ])
              ++ [ {| role := assistant; content := concatAll cs |} ])
    (addPlaceholder (started s)).

(** The text of the last message of each state (nothing for an empty
    conversation). *)
Definition trailingTexts (l : list State) : list (option string) :=
  map (fun s => option_map content (trailing s)) l.

(** The environment [env] with the response [r] made to carry the body
    stream [stream]. *)
Definition answerWith (env : Env) (r : Response.t) (stream : Stream) : Env :=
  {| now := now env; engine := engine env;
     fetched := Resolves {| Response.status := Response.status r;
                            Response.statusText := Response.statusText r;
                            Response.json := Response.json r;
                            Response.body := Some stream |} |}.

(** The flag is up exactly while one call is suspended, and no more
    than one ever is. *)
Definition oneAtATime (c : Config) : Prop :=
  match pending c with
  | [] => isLoading (state c) = false
  | [_] => isLoading (state c) = true
  | _ :: _ :: _ => False
  end.

(** ** Sample inputs *)

Module Sample.

(** A component with a key, a model and a message typed in. *)
Definition ready : State :=
  setUserMessage "Hi" (setModel "gpt-4" (setApiKey "sk-test" initialState)).

(** The same component while an exchange is under way. *)
Definition busy : State := setIsLoading true ready.

Definition facing (f : FetchOutcome) : Env :=
  {| now := 1700000000000; engine := V8; fetched := f |}.

(** A 200 response that streams [cs] and then ends as [e]. *)
Definition streaming (cs : list string) (e : StreamEnd) : FetchOutcome :=
  Resolves {| Response.status := 200; Response.statusText := "OK";
              Response.json := None;
              Response.body := Some {| chunks := cs; ending := e |} |}.

(** A response with the given status line whose body decodes to
    [decoded] (the handler reads [response.body] of a 2xx response
    only, so it is left out here). *)
Definition answering (status : Z) (statusText : string) (decoded : option jsval) : FetchOutcome :=
  Resolves {| Response.status := status; Response.statusText := statusText;
              Response.json := decoded; Response.body := None |}.

(** A key and a message typed in, the form submitted, and the answer
    begun. *)
Definition midExchange : list Event :=
  [ TypeApiKey "sk-test"; TypeMessage "Hi";
    Submit (facing (streaming ["Hello"] Done)); Resume 0 ].

End Sample.

(** ** The table of [ErrorHandlingDemo.tsx] *)

Module ErrorHandlingDemo.

(** [errorScenarios]: the object literal, as the list of its entries in
    the order they are written. *)
Definition errorScenarios : list (string * string) := [
  ("missingApiKey", "Please enter your OpenAI API key");
  ("invalidApiKey", "Invalid API key. Please check your OpenAI API key and try again.");
  ("rateLimit", "Rate limit exceeded or insufficient quota. Please check your OpenAI account.");
  ("badRequest", "Invalid request. Please check your input and selected model.");
  ("modelNotFound", "Model not found. Please select a different model.");
  ("serverError", "OpenAI service is temporarily unavailable. Please try again later.");
  ("networkError", "Network error. Please check your internet connection and try again.")
].

(** [errorScenarios[key]] *)
Fixpoint lookup (key : string) (table : list (string * string)) : option string :=
  match table with
  | [] => None
  | (k, v) :: rest => if String.eqb k key then Some v else lookup key rest
  end.

End ErrorHandlingDemo.

(** ** The earlier component

    The version of [ChatInterface] that has no notifications: the same
    state cells but [toasts] (carried along here, never touched), one
    validation, and a single [catch] clause with a fixed message. *)

Module Legacy.

(** The [try] block from the settling of [fetch] on. A response that
    is not ok throws an [Error]; a read that fails is not caught inside
    the loop and leaves the block with the state the loop had reached. *)
Fixpoint readLoop (chunks : list string) (ending : StreamEnd)
         (assistantContent : string) (s : State) : flow :=
  match chunks with
  | [] =>
      match ending with
      | Done => Fallthrough s
      | ReadFails streamError => Thrown streamError s
      end
  | chunk :: rest =>
      let (assistantContent', s') := onChunk assistantContent chunk s in
      readLoop rest ending assistantContent' s'
  end.

Definition tryBlock (env : Env) (s : State) : flow :=
  match fetched env with
  | Rejects message => Thrown (JError message) s
  | Resolves response =>
      if negb (Response.ok response) then
        Thrown (JError ("HTTP error! status: " ++ ofInt (Response.status response))%string) s
      else
        let s1 := addPlaceholder s in
        match Response.body response with
        | Some stream => readLoop (chunks stream) (ending stream) "" s1
        | None => Fallthrough s1
        end
  end.

(** [setUserMessage("")] at the end of the [try] block, the [catch]
    clause, and [finally]. *)
Definition settle (f : flow) : State :=
  match f with
  | Fallthrough s => setIsLoading false (setUserMessage "" s)
  | Returned s => setIsLoading false s
  | Thrown _ s =>
      setIsLoading false
        (dropLast (setError "Failed to send message. Please check your API key and try again." s))
  end.

Definition handleSubmit (env : Env) (s : State) : State * list Request.t :=
  if isBlank (userMessage s) || isBlank (apiKey s) then
    (setError "Please enter both a message and API key" s, [])
  else
    let s1 := setError "" s in
    let s2 := setIsLoading true s1 in
    let newUserMessage := {| role := user; content := userMessage s |} in
    let s3 := setMessages (fun prev => prev ++ [newUserMessage]) s2 in
    (settle (tryBlock env s3), [requestOf s]).

(** [clearChat] *)
Definition clearChat (s : State) : State :=
  setError "" (setMessages (fun _ => []) s).

End Legacy.

(** ** More vocabulary *)

(** [l] continues [base] by at most [n] elements. *)
Definition extendsBy {A : Type} (n : nat) (base l : list A) : Prop :=
  exists more, l = base ++ more /\ (List.length more <= n)%nat.

(** A suspended call in its read loop, as a configuration. *)
Definition reading (env : Env) (assistantContent : string) (rest : list string)
           (ending : StreamEnd) (s : State) (out : list Request.t) : Config :=
  {| state := s; pending := [AwaitRead env assistantContent rest ending]; sent := out |}.

(** * Properties *)

(** ** The embedding on the scenarios of the specification *)

Example toLowerCase_example : toLowerCase "Invalid API Key" = "invalid api key".
Proof. reflexivity. Qed.

Example includes_example :
  includes "failed to fetch" "fetch" = true /\ includes "fetch" "failed to fetch" = false.
Proof. split; reflexivity. Qed.

Example trim_example : trim "  a b  " = "a b" /\ trim (String "009" " ") = "".
Proof. split; reflexivity. Qed.

Example ofInt_example : ofInt 401 = "401" /\ ofInt 0 = "0" /\ ofInt (-5) = "-5".
Proof. repeat split; reflexivity. Qed.

Example classify_network_example :
  parseErrorMessage V8 (JError "Failed to fetch") None
  = Normal ("Network error. Please check your internet connection and try again.", TError).
Proof. reflexivity. Qed.

Example classify_default_example :
  parseErrorMessage V8 (JObject (JStr "Teapot")) (Some 418%Z)
  = Normal ("Error: Teapot", TError).
Proof. reflexivity. Qed.

(** The end-to-end scenario: "Hi" with key "sk-test" and model "gpt-4"
    against a 200 stream that emits "Hi there!". *)
Example end_to_end_example :
  handleSubmit (Sample.facing (Sample.streaming ["Hi there!"] Done)) Sample.ready
  = {| final :=
         {| messages := [ {| role := user; content := "Hi" |};
                          {| role := assistant; content := "Hi there!" |} ];
            userMessage := ""; developerMessage := ""; apiKey := "sk-test";
            model := "gpt-4"; isLoading := false; error := "";
            toasts := [ {| Toast.id := "1700000000000";
                           Toast.message := "Message sent successfully!";
                           Toast.type := TSuccess |} ] |};
       requests := [ {| Request.developer_message := "You are a helpful assistant.";
                        Request.user_message := "Hi";
                        Request.model := "gpt-4";
                        Request.api_key := "sk-test" |} ];
       partials := [ setMessages (fun _ => [ {| role := user; content := "Hi" |};
                                             {| role := assistant; content := "Hi there!" |} ])
                       Sample.busy ];
       uncaught := None |}.
Proof. reflexivity. Qed.

(** A transport failure before any response: classified, reported,
    and the user's message taken back. *)
Example transport_failure_example :
  final (handleSubmit (Sample.facing (Rejects "Failed to fetch")) Sample.ready)
  = setError "Network error. Please check your internet connection and try again."
      (addToast 1700000000000
         "Network error. Please check your internet connection and try again." TError
         Sample.ready).
Proof. reflexivity. Qed.

(** ** Strings *)

Section StringFacts.

Lemma toLowerCase_cons_fixed (a : ascii) (p : string) :
  toLowerCase (String a p) = String a p ->
  toLowerCaseChar a = a /\ toLowerCase p = p.
Proof. simpl; intros H; injection H; auto. Qed.

(** Matching a lower-case phrase up to case is looking for it in the
    lower-cased text. *)
Lemma headIs_startsWith (phrase : string) :
  toLowerCase phrase = phrase ->
  forall text, Spec.headIs text phrase = startsWith (toLowerCase text) phrase.
Proof.
  induction phrase as [|a p IH]; intros Hfix text.
  - destruct text; reflexivity.
  - apply toLowerCase_cons_fixed in Hfix as [Ha Hp].
    destruct text as [|b t]; simpl; [reflexivity|].
    unfold Spec.sameLetter. rewrite Ha, (IH Hp). reflexivity.
Qed.

Lemma contains_includes (phrase : string) :
  toLowerCase phrase = phrase ->
  forall text, Spec.contains text phrase = includes (toLowerCase text) phrase.
Proof.
  intros Hfix text; induction text as [|b t IH].
  - cbn [Spec.contains includes toLowerCase].
    rewrite (headIs_startsWith phrase Hfix ""). reflexivity.
  - cbn [Spec.contains includes toLowerCase].
    rewrite (headIs_startsWith phrase Hfix (String b t)), IH. reflexivity.
Qed.

(** A string trims to nothing exactly when it is all white space. *)
Lemma trimEnd_empty (s : string) :
  trimEnd s = "" <-> allWhiteSpace s = true.
Proof.
  induction s as [|c t IH]; simpl; [tauto|].
  destruct (trimEnd t) eqn:Et.
  - destruct (isWhiteSpace c); simpl.
    + split; intros _; [apply IH|]; reflexivity.
    + split; discriminate.
  - split; [discriminate|].
    intros H; apply andb_true_iff in H as [_ H].
    apply IH in H; discriminate.
Qed.

Lemma trimStart_allWhiteSpace (s : string) :
  allWhiteSpace (trimStart s) = allWhiteSpace s.
Proof.
  induction s as [|c t IH]; simpl; [reflexivity|].
  destruct (isWhiteSpace c) eqn:Ec; simpl; [exact IH|].
  rewrite Ec; reflexivity.
Qed.

Lemma trim_empty (s : string) : trim s = "" <-> allWhiteSpace s = true.
Proof.
  unfold trim. rewrite trimEnd_empty, trimStart_allWhiteSpace. tauto.
Qed.

Lemma isBlank_allWhiteSpace (s : string) : isBlank s = allWhiteSpace s.
Proof.
  unfold isBlank. destruct (allWhiteSpace s) eqn:E.
  - apply trim_empty in E. rewrite E. reflexivity.
  - destruct (trim s) eqn:Et; [|reflexivity].
    apply trim_empty in Et. congruence.
Qed.

End StringFacts.

(** ** The classifier *)

Lemma classifyText_classify (text : string) (status : option Z) :
  classifyText text status = Spec.classify text status.
Proof.
  unfold classifyText, Spec.classify, Spec.rules.
  cbn [find]. unfold Spec.applies. cbn [Spec.code Spec.phrases Spec.yields existsb].
  rewrite !contains_includes by reflexivity.
  rewrite !orb_false_r, !orb_assoc.
  destruct status as [k|]; cbn [orb];
    repeat match goal with
           | |- context [if ?b then _ else _] => destruct b; try reflexivity
           end.
Qed.

Lemma status_401_test {A : Type} (status : option Z) (x y : A) :
  match status with
  | Some 401%Z => x
  | _ => y
  end
  = if match status with Some k => (k =? 401)%Z | None => false end then x else y.
Proof.
  destruct status as [[|p|p]|]; try reflexivity.
  do 9 (destruct p as [p|p|]; try reflexivity).
Qed.

(** [parseErrorMessage] in one equation. *)
Lemma parseErrorMessage_cases (engine : Engine) (error : jsval) (status : option Z) :
  parseErrorMessage engine error status
  = match errorStringOf error with
    | JStr text => Normal (classifyText text status)
    | _ => if match status with Some k => (k =? 401)%Z | None => false end
           then Normal invalidApiKey
           else Throw (JError (msgNotAFunction engine))
    end.
Proof.
  unfold parseErrorMessage.
  destruct (errorStringOf error); try reflexivity; apply status_401_test.
Qed.

Lemma status_is_401 (status : option Z) :
  match status with Some k => (k =? 401)%Z | None => false end = true
  <-> status = Some 401%Z.
Proof.
  destruct status as [k|]; [|split; discriminate].
  rewrite Z.eqb_eq. split; [intros ->; reflexivity | congruence].
Qed.





(** A decoded body whose [detail] is neither absent nor a string is
    outside the classifier's input type: any status but 401 then makes
    it throw. *)
Lemma parseErrorMessage_untyped_detail (engine : Engine) (n : Z) (status : option Z) :
  n <> 0%Z -> status <> Some 401%Z ->
  parseErrorMessage engine (JObject (JNum n)) status
  = Throw (JError (msgNotAFunction engine)).
Proof.
  intros Hn Hs. unfold parseErrorMessage, errorStringOf, orElse; simpl.
  destruct (Z.eqb_spec n 0) as [E|_]; [contradiction|]; simpl.
  destruct status as [[|k|k]|]; try reflexivity.
  assert (Hk : k <> 401%positive) by congruence.
  do 9 (destruct k as [k|k|]; try reflexivity); contradiction.
Qed.

(** An [Error] is always classified: the [catch] clause of
    [handleSubmit] lets nothing escape. *)
Lemma parseErrorMessage_Error (engine : Engine) (m : string) (status : option Z) :
  parseErrorMessage engine (JError m) status = Normal (classifyText m status).
Proof. reflexivity. Qed.

(** Status 401 decides alone, whatever the input. *)
Lemma parseErrorMessage_401 (engine : Engine) (e : jsval) :
  parseErrorMessage engine e (Some 401%Z)
  = Normal ("Invalid API key. Please check your OpenAI API key and try again.", TError).
Proof.
  unfold parseErrorMessage. destruct (errorStringOf e); reflexivity.
Qed.

(** ** The submit handler *)

Section Handler.

Variable env : Env.
Variable s : State.

Lemma validInputs_fields :
  validInputs s = true -> isBlank (apiKey s) = false /\ isBlank (userMessage s) = false.
Proof.
  unfold validInputs. intros H. apply andb_true_iff in H as [H1 H2].
  apply negb_true_iff in H1, H2. auto.
Qed.

Lemma submitHead_valid (t : Z) :
  validInputs s = true -> submitHead t s = (started s, Some (requestOf s)).
Proof.
  intros H. apply validInputs_fields in H as [H1 H2].
  unfold submitHead. rewrite H1, H2. reflexivity.
Qed.

Lemma handleSubmit_valid :
  validInputs s = true ->
  handleSubmit env s
  = {| final := fst (settle env (tryBlock env (started s)));
       requests := [requestOf s];
       partials := streamStates env (started s);
       uncaught := snd (settle env (tryBlock env (started s))) |}.
Proof.
  intros H. unfold handleSubmit. rewrite (submitHead_valid _ H).
  destruct (settle env (tryBlock env (started s))); reflexivity.
Qed.

End Handler.

(** C2. A submit with an API key or a message that is empty or all
    white space issues no request, leaves the message list as it was,
    and pushes exactly one notification, a warning. *)
Theorem blank_submit_is_rejected :
  forall (env : Env) (s : State),
    allWhiteSpace (apiKey s) = true \/ allWhiteSpace (userMessage s) = true ->
    requests (handleSubmit env s) = []
    /\ messages (final (handleSubmit env s)) = messages s
    /\ exists t, toasts (final (handleSubmit env s)) = toasts s ++ [t]
                 /\ Toast.type t = TWarning.
Proof.
  intros env s H. rewrite <- !isBlank_allWhiteSpace in H.
  unfold handleSubmit, submitHead.
  destruct (isBlank (apiKey s)) eqn:Ek.
  - simpl. repeat split. eexists; split; reflexivity.
  - destruct H as [H|H]; [discriminate|]. rewrite H.
    simpl. repeat split. eexists; split; reflexivity.
Qed.

Lemma blank_submit_is_rejected_witness :
  (allWhiteSpace (apiKey (setUserMessage "   " Sample.ready)) = true
   \/ allWhiteSpace (userMessage (setUserMessage "   " Sample.ready)) = true)
  /\ requests (handleSubmit (Sample.facing (Rejects "unused"))
                 (setUserMessage "   " Sample.ready)) = []
  /\ messages (final (handleSubmit (Sample.facing (Rejects "unused"))
                 (setUserMessage "   " Sample.ready))) = []
  /\ exists t, toasts (final (handleSubmit (Sample.facing (Rejects "unused"))
                 (setUserMessage "   " Sample.ready))) = [] ++ [t]
               /\ Toast.type t = TWarning.
Proof.
  split; [right; reflexivity|].
  apply (blank_submit_is_rejected (Sample.facing (Rejects "unused"))
           (setUserMessage "   " Sample.ready)).
  right; reflexivity.
Defined.

(** ** The failure branch *)

Lemma messages_dropLast_report_started (t : Z) (v : string * ToastType) (s : State) :
  messages (dropLast (report t v (started s))) = messages s.
Proof. simpl. apply removelast_last. Qed.

(** Whatever the body, the failure branch ends with one verdict
    reported and the last message dropped; the verdict is that of the
    rules whenever the body has a text. *)
Lemma settle_onNotOk (env : Env) (r : Response.t) (s : State) :
  exists v,
    settle env (onNotOk env r s)
    = (setIsLoading false (dropLast (report (now env) v s)), None)
    /\ forall text, errorTextOf r = Some text ->
                    v = classifyText text (Some (Response.status r)).
Proof.
  unfold onNotOk, errorTextOf.
  destruct (errorDataOf r) as [| |b|n|t|m|d] eqn:Ed; cbn [getDetail optDetail].
  1,2: eexists; split; [reflexivity | discriminate].
  all: match goal with
       | |- context [parseErrorMessage ?g ?e ?st] =>
           unfold parseErrorMessage;
           destruct (errorStringOf e) as [| |b'|n'|t'|m'|d'] eqn:Es
       end.
  all: try (eexists; split; [reflexivity|]; intros text H;
            first [discriminate H | injection H as <-; reflexivity]).
  all: destruct (Response.status r) as [|k|k];
       try (eexists; split; [reflexivity | discriminate]).
  all: destruct (Pos.eq_dec k 401) as [->|Hk];
       [eexists; split; [reflexivity | discriminate]|].
  all: assert (Hm : forall A (x y : A),
                 match k with 401%positive => x | _ => y end = y)
         by (intros A x y; do 9 (destruct k as [k|k|]; try reflexivity); contradiction).
  all: rewrite Hm; eexists; split; [reflexivity | discriminate].
Qed.

Lemma find_first_hit {A : Type} (f : A -> bool) (before : list A) (x : A) (after : list A) :
  (forall y, In y before -> f y = false) -> f x = true ->
  find f (before ++ x :: after) = Some x.
Proof.
  induction before as [|y before IH]; intros Hmiss Hhit; cbn [app find].
  - rewrite Hhit. reflexivity.
  - rewrite (Hmiss y (or_introl eq_refl)).
    apply IH; [|exact Hhit]. intros z Hz. apply Hmiss. right. exact Hz.
Qed.

(** No two rules answer to the same status. *)
Lemma rule_codes_distinct (k : Z)
      (earlier : list Spec.Rule) (rule : Spec.Rule) (later : list Spec.Rule) :
  Spec.rules = earlier ++ rule :: later ->
  Spec.code rule = Some k ->
  forall q, In q earlier -> Spec.code q <> Some k.
Proof.
  intros Hsplit Hcode q Hq. unfold Spec.rules in Hsplit.
  do 7 (destruct earlier as [|? earlier];
        [ try contradiction;
          cbn [app] in Hsplit;
          first [ discriminate Hsplit
                | injection Hsplit as <- <-;
                  cbn in Hcode; try discriminate Hcode;
                  injection Hcode as <-;
                  cbn [In] in Hq;
                  repeat (destruct Hq as [<-|Hq]; [cbn; discriminate|]);
                  contradiction ]
        | cbn [app] in Hsplit;
          first [ discriminate Hsplit
                | let H := fresh "Hhead" in
                  injection Hsplit as H Hsplit; subst ] ]).
Qed.

(** A status rule decides when no phrase of an earlier rule occurs in
    the text. *)
Lemma classify_by_status (text : string) (k : Z)
      (earlier : list Spec.Rule) (rule : Spec.Rule) (later : list Spec.Rule) :
  Spec.rules = earlier ++ rule :: later ->
  Spec.code rule = Some k ->
  (forall q, In q earlier -> existsb (Spec.contains text) (Spec.phrases q) = false) ->
  Spec.classify text (Some k) = Spec.yields rule.
Proof.
  intros Hsplit Hcode Hquiet. unfold Spec.classify.
  rewrite Hsplit, find_first_hit; [reflexivity| |].
  - intros q Hq. unfold Spec.applies. rewrite (Hquiet q Hq), orb_false_r.
    pose proof (rule_codes_distinct k earlier rule later Hsplit Hcode q Hq) as Hne.
    destruct (Spec.code q) as [c|]; [|reflexivity].
    apply Z.eqb_neq. congruence.
  - unfold Spec.applies. rewrite Hcode, Z.eqb_refl. reflexivity.
Qed.

Lemma errorTextOf_fallback (r : Response.t) :
  Response.json r = None ->
  errorTextOf r
  = Some ("HTTP " ++ ofInt (Response.status r) ++ ": " ++ Response.statusText r)%string.
Proof.
  intros H. unfold errorTextOf, errorDataOf. rewrite H. reflexivity.
Qed.

(** C3, as the code has it. For every valid submit answered by a
    non-2xx response, the message list is afterwards what it was before
    the submit, one request was issued and exactly one notification is
    pushed. The error body is the decoded one, or the synthesized
    [HTTP <status>: <statusText>] when decoding fails; whenever that body
    has a text, the notification is what the rules give for that text
    and the status, in their order: a status rule decides when no phrase
    of an earlier rule occurs in the text. *)
Theorem failure_response_rolls_back_and_reports :
  forall (env : Env) (s : State) (r : Response.t),
    validInputs s = true ->
    fetched env = Resolves r ->
    Response.ok r = false ->
    messages (final (handleSubmit env s)) = messages s
    /\ requests (handleSubmit env s) = [requestOf s]
    /\ (Response.json r = None ->
        errorTextOf r
        = Some ("HTTP " ++ ofInt (Response.status r) ++ ": " ++ Response.statusText r)%string)
    /\ exists t,
        toasts (final (handleSubmit env s)) = toasts s ++ [t]
        /\ forall text,
            errorTextOf r = Some text ->
            shows t = Spec.classify text (Some (Response.status r))
            /\ forall earlier rule later,
                Spec.rules = earlier ++ rule :: later ->
                Spec.code rule = Some (Response.status r) ->
                (forall q, In q earlier ->
                           existsb (Spec.contains text) (Spec.phrases q) = false) ->
                shows t = Spec.yields rule.
Proof.
  intros env s r Hvalid Hfetch Hok.
  rewrite (handleSubmit_valid env s Hvalid). cbn [final requests].
  unfold tryBlock. rewrite Hfetch, Hok. cbn [negb].
  destruct (settle_onNotOk env r (started s)) as [v [Hsettle Hv]].
  rewrite Hsettle. cbn [fst].
  split; [apply (messages_dropLast_report_started (now env) v s)|].
  split; [reflexivity|].
  split; [apply errorTextOf_fallback|].
  eexists. split; [reflexivity|].
  intros text Htext. specialize (Hv text Htext). subst v.
  unfold shows; cbn [Toast.message Toast.type].
  rewrite <- surjective_pairing, classifyText_classify.
  split; [reflexivity|].
  intros earlier rule later Hsplit Hcode Hquiet.
  apply (classify_by_status text _ earlier rule later Hsplit Hcode Hquiet).
Qed.

Lemma failure_response_rolls_back_and_reports_witness :
  (validInputs Sample.ready = true
   /\ Response.ok {| Response.status := 429; Response.statusText := "Too Many Requests";
                     Response.json := Some (JObject (JStr "You exceeded your current quota"));
                     Response.body := None |} = false)
  /\ messages (final (handleSubmit
       (Sample.facing (Sample.answering 429 "Too Many Requests"
                         (Some (JObject (JStr "You exceeded your current quota")))))
       Sample.ready)) = messages Sample.ready
  /\ map shows (toasts (final (handleSubmit
       (Sample.facing (Sample.answering 429 "Too Many Requests"
                         (Some (JObject (JStr "You exceeded your current quota")))))
       Sample.ready)))
     = [("Rate limit exceeded or insufficient quota. Please check your OpenAI account.", TWarning)].
Proof.
  split; [split; reflexivity|].
  destruct (failure_response_rolls_back_and_reports
              (Sample.facing (Sample.answering 429 "Too Many Requests"
                                (Some (JObject (JStr "You exceeded your current quota")))))
              Sample.ready _ eq_refl eq_refl eq_refl)
    as [Hm [_ [_ [t [Ht Hshow]]]]].
  split; [exact Hm|].
  rewrite Ht. cbn [map app Sample.ready toasts setUserMessage setModel setApiKey initialState].
  destruct (Hshow "You exceeded your current quota" eq_refl) as [-> _].
  reflexivity.
Defined.

(** C3 as it is written fails: a 429 response whose body speaks of an
    unauthorized key is reported as an invalid API key (an error), not
    as the rate-limit warning that the status alone stands for. *)
Lemma status_429_reported_as_invalid_key :
  validInputs Sample.ready = true
  /\ Spec.byStatus 429
     = Some ("Rate limit exceeded or insufficient quota. Please check your OpenAI account.", TWarning)
  /\ map shows (toasts (final (handleSubmit
       (Sample.facing (Sample.answering 429 "Too Many Requests"
                         (Some (JObject (JStr "Unauthorized: quota exceeded")))))
       Sample.ready)))
     = [("Invalid API key. Please check your OpenAI API key and try again.", TError)]
  /\ ~ (exists t,
         toasts (final (handleSubmit
           (Sample.facing (Sample.answering 429 "Too Many Requests"
                             (Some (JObject (JStr "Unauthorized: quota exceeded")))))
           Sample.ready)) = toasts Sample.ready ++ [t]
         /\ Some (shows t) = Spec.byStatus 429).
Proof.
  split; [reflexivity|]. split; [reflexivity|]. split; [reflexivity|].
  intros [t [Ht Hs]]. cbn in Ht. injection Ht as <-. discriminate Hs.
Qed.

(** A decoded [null] is the case the failure branch misses: reading its
    [detail] throws, and the [catch] clause classifies the [TypeError]
    without the status. *)
Example null_body_loses_status :
  map shows (toasts (final (handleSubmit
    (Sample.facing (Sample.answering 401 "Unauthorized" (Some JNull))) Sample.ready)))
  = [("Error: Cannot read properties of null (reading 'detail')", TError)].
Proof. reflexivity. Qed.

(** ** The read loop *)

Section ReadLoop.

Lemma append_empty_r (a : string) : (a ++ "")%string = a.
Proof. induction a as [|c t IH]; simpl; [|rewrite IH]; reflexivity. Qed.

Lemma append_assoc (a b c : string) : ((a ++ b) ++ c)%string = (a ++ (b ++ c))%string.
Proof. induction a as [|x t IH]; simpl; [|rewrite IH]; reflexivity. Qed.

Lemma setMessages_same (s : State) : setMessages (fun _ => messages s) s = s.
Proof. destruct s; reflexivity. Qed.

Lemma updateLast_last (text : string) (before : list ChatMessage) (m : ChatMessage) :
  updateLast text (before ++ [m]) = before ++ [ {| role := role m; content := text |} ].
Proof.
  induction before as [|a before IH]; [reflexivity|].
  destruct before as [|b before]; [reflexivity|].
  change (a :: updateLast text ((b :: before) ++ [m])
          = a :: ((b :: before) ++ [ {| role := role m; content := text |} ])).
  rewrite IH. reflexivity.
Qed.

Lemma trailing_last (s : State) (before : list ChatMessage) (m : ChatMessage) :
  messages s = before ++ [m] -> trailing s = Some m.
Proof.
  intros H. unfold trailing. rewrite H, rev_unit. reflexivity.
Qed.

(** After the loop the accumulator is what it was followed by every
    chunk in order, and the last message holds that text. *)
Lemma readLoop_result (cs : list string) :
  forall (acc : string) (s : State) (before : list ChatMessage) (m : ChatMessage),
    messages s = before ++ [m] ->
    content m = acc ->
    readLoop cs acc s
    = ((acc ++ concatAll cs)%string,
       setMessages (fun _ => before ++ [ {| role := role m;
                                            content := (acc ++ concatAll cs)%string |} ]) s).
Proof.
  induction cs as [|c cs IH]; intros acc s before m Hm Hacc.
  - cbn [readLoop concatAll]. rewrite append_empty_r. f_equal.
    rewrite <- Hacc. destruct m as [r t]; cbn [role content].
    rewrite <- Hm. symmetry. apply setMessages_same.
  - cbn [readLoop onChunk concatAll].
    rewrite (IH (acc ++ c)%string _ before {| role := role m; content := (acc ++ c)%string |});
      [ | cbn [messages setMessages]; rewrite Hm; apply updateLast_last | reflexivity ].
    cbn [role]. rewrite append_assoc. reflexivity.
Qed.

(** The states the loop goes through: after the [k]-th chunk the last
    message holds the first [k] chunks, concatenated. *)
Lemma readTrace_contents (cs : list string) :
  forall (acc : string) (s : State) (before : list ChatMessage) (m : ChatMessage),
    messages s = before ++ [m] ->
    map trailing (readTrace cs acc s)
    = map (fun k => Some {| role := role m;
                            content := (acc ++ concatAll (firstn k cs))%string |})
          (seq 1 (List.length cs)).
Proof.
  induction cs as [|c cs IH]; intros acc s before m Hm; [reflexivity|].
  cbn [readTrace onChunk List.length seq map].
  assert (Hm' : messages (setMessages (updateLast (acc ++ c)%string) s)
                = before ++ [ {| role := role m; content := (acc ++ c)%string |} ]).
  { cbn [messages setMessages]. rewrite Hm. apply updateLast_last. }
  rewrite (trailing_last _ _ _ Hm').
  cbn [firstn concatAll]. rewrite append_empty_r. f_equal.
  rewrite (IH _ _ _ _ Hm'). cbn [role].
  rewrite <- (seq_shift (List.length cs) 1), map_map. apply map_ext. intros k.
  cbn [firstn concatAll]. rewrite append_assoc. reflexivity.
Qed.

(** The last state of the trace is the state the loop ends in. *)
Lemma readTrace_last (cs : list string) :
  forall (acc : string) (s d : State),
    last (readTrace cs acc s) d
    = match cs with
      | [] => d
      | _ :: _ => snd (readLoop cs acc s)
      end.
Proof.
  induction cs as [|c cs IH]; intros acc s d; [reflexivity|].
  cbn [readTrace readLoop onChunk].
  specialize (IH (acc ++ c)%string (setMessages (updateLast (acc ++ c)%string) s) d).
  destruct cs as [|c' cs]; [reflexivity|].
  rewrite <- IH. reflexivity.
Qed.

Lemma readTrace_length (cs : list string) :
  forall (acc : string) (s : State),
    List.length (readTrace cs acc s) = List.length cs.
Proof.
  induction cs as [|c cs IH]; intros acc s; [reflexivity|].
  cbn [readTrace onChunk List.length]. rewrite IH. reflexivity.
Qed.

End ReadLoop.

(** ** A streamed answer *)

Lemma truthy_trim (text : string) : truthy (trim text) = negb (allWhiteSpace text).
Proof.
  rewrite <- isBlank_allWhiteSpace. unfold isBlank. rewrite negb_involutive. reflexivity.
Qed.

Lemma onStreamError_verdict (env : Env) (streamError : jsval) (s : State) :
  onStreamError env streamError s
  = Returned (dropLast (report (now env) invalidApiKey s)).
Proof.
  unfold onStreamError. rewrite parseErrorMessage_401. reflexivity.
Qed.

Lemma onStreamDone_cases (env : Env) (text : string) (s : State) :
  onStreamDone env text s
  = if allWhiteSpace text
    then Returned (dropLast (report (now env) invalidApiKey s))
    else Fallthrough (addToast (now env) "Message sent successfully!" TSuccess s).
Proof.
  unfold onStreamDone. rewrite truthy_trim.
  destruct (allWhiteSpace text); reflexivity.
Qed.

(** Two states with the same cells are the same state. *)
Lemma state_ext (a b : State) :
  messages a = messages b ->
  userMessage a = userMessage b ->
  developerMessage a = developerMessage b ->
  apiKey a = apiKey b ->
  model a = model b ->
  isLoading a = isLoading b ->
  error a = error b ->
  toasts a = toasts b ->
  a = b.
Proof.
  destruct a, b. cbn. intros. subst. reflexivity.
Qed.

(** Compare two states cell by cell; the lists that differ by a
    dropped last element are the only cells left to look at. *)
Local Ltac by_cells :=
  apply state_ext;
  cbn [messages userMessage developerMessage apiKey model isLoading error toasts
       setMessages setUserMessage setIsLoading setError setToasts
       dropLast report addToast started streamed addPlaceholder];
  try reflexivity.

(** Dropping the assistant message, whatever it holds, gives back the
    conversation as the submit left it. *)
Lemma dropLast_report_streamed (t : Z) (v : string * ToastType) (cs : list string) (s : State) :
  dropLast (report t v (streamed cs s)) = report t v (started s).
Proof.
  by_cells. apply removelast_last.
Qed.

(** The state in which a valid submit ends when the response is 2xx and
    has a body stream. *)
Lemma streamed_answer_final (env : Env) (s : State) (r : Response.t) (stream : Stream) :
  validInputs s = true ->
  fetched env = Resolves r ->
  Response.ok r = true ->
  Response.body r = Some stream ->
  final (handleSubmit env s)
  = match ending stream with
    | Done =>
        if allWhiteSpace (concatAll (chunks stream))
        then setIsLoading false (report (now env) invalidApiKey (started s))
        else setIsLoading false
               (setUserMessage ""
                  (addToast (now env) "Message sent successfully!" TSuccess
                     (streamed (chunks stream) s)))
    | ReadFails _ =>
        setIsLoading false (report (now env) invalidApiKey (started s))
    end.
Proof.
  intros Hvalid Hfetch Hok Hbody.
  rewrite (handleSubmit_valid env s Hvalid). cbn [final].
  unfold tryBlock. rewrite Hfetch, Hok, Hbody. cbn [negb].
  rewrite (readLoop_result (chunks stream) "" (addPlaceholder (started s))
             (messages s ++ [ {| role := user; content := userMessage s |} ])
             {| role := assistant; content := "" |} eq_refl eq_refl).
  cbn [append role]. fold (streamed (chunks stream) s).
  unfold afterLoop. destruct (ending stream) as [|e].
  - rewrite onStreamDone_cases.
    destruct (allWhiteSpace (concatAll (chunks stream)));
      cbn [settle fst]; rewrite ?dropLast_report_streamed; reflexivity.
  - rewrite onStreamError_verdict.
    cbn [settle fst]. rewrite dropLast_report_streamed. reflexivity.
Qed.

(** C4. While a valid submit streams a 2xx answer, the state set after
    the [k]-th chunk shows, as its last message, the assistant message
    whose content is the first [k] chunks concatenated in arrival order:
    one state per chunk, none skipped or merged. When the stream then
    completes with more than white space, that message ends the
    conversation, after the user's. In particular the chunks "He",
    "llo", "!" show "He" and "Hello" and then the final "Hello!". *)
Theorem stream_appends_in_order :
  (forall (env : Env) (s : State) (r : Response.t) (stream : Stream),
      validInputs s = true ->
      fetched env = Resolves r ->
      Response.ok r = true ->
      Response.body r = Some stream ->
      map trailing (partials (handleSubmit env s))
      = map (fun k => Some {| role := assistant;
                              content := concatAll (firstn k (chunks stream)) |})
            (seq 1 (List.length (chunks stream)))
      /\ (ending stream = Done ->
          allWhiteSpace (concatAll (chunks stream)) = false ->
          messages (final (handleSubmit env s))
          = messages s ++ [ {| role := user; content := userMessage s |};
                            {| role := assistant; content := concatAll (chunks stream) |} ]))
  /\ trailingTexts (partials (handleSubmit
        (Sample.facing (Sample.streaming ["He"; "llo"; "!"] Done)) Sample.ready))
     = [Some "He"; Some "Hello"; Some "Hello!"]
  /\ messages (final (handleSubmit
        (Sample.facing (Sample.streaming ["He"; "llo"; "!"] Done)) Sample.ready))
     = [ {| role := user; content := "Hi" |};
         {| role := assistant; content := "Hello!" |} ].
Proof.
  split; [|split; reflexivity].
  intros env s r stream Hvalid Hfetch Hok Hbody. split.
  - rewrite (handleSubmit_valid env s Hvalid). cbn [partials].
    unfold streamStates. rewrite Hfetch, Hok, Hbody.
    apply (readTrace_contents (chunks stream) "" (addPlaceholder (started s))
             (messages s ++ [ {| role := user; content := userMessage s |} ])
             {| role := assistant; content := "" |} eq_refl).
  - intros Hdone Hcontent.
    rewrite (streamed_answer_final env s r stream Hvalid Hfetch Hok Hbody).
    rewrite Hdone, Hcontent. cbn. rewrite <- app_assoc. reflexivity.
Qed.

Lemma stream_appends_in_order_witness :
  validInputs Sample.ready = true
  /\ map trailing (partials (handleSubmit
        (Sample.facing (Sample.streaming ["He"; "llo"; "!"] Done)) Sample.ready))
     = [ Some {| role := assistant; content := "He" |};
         Some {| role := assistant; content := "Hello" |};
         Some {| role := assistant; content := "Hello!" |} ].
Proof.
  split; [reflexivity|].
  exact (proj1 (proj1 stream_appends_in_order
                  (Sample.facing (Sample.streaming ["He"; "llo"; "!"] Done))
                  Sample.ready _ _ eq_refl eq_refl eq_refl eq_refl)).
Defined.

Lemma validInputs_userMessage (s : State) :
  validInputs s = true -> userMessage s <> "".
Proof.
  intros H E. apply validInputs_fields in H as [_ H].
  rewrite E in H. discriminate H.
Qed.

(** C5. When a valid submit gets a 2xx response whose stream completes
    without any content, the placeholder is taken out again (only the
    user's message stays appended) and exactly one notification is
    pushed: the verdict of the classifier for status 401, an error. The
    pending input is kept and no success is reported. *)
Theorem empty_stream_is_reported_as_401 :
  forall (env : Env) (s : State) (r : Response.t) (stream : Stream),
    validInputs s = true ->
    fetched env = Resolves r ->
    Response.ok r = true ->
    Response.body r = Some stream ->
    ending stream = Done ->
    concatAll (chunks stream) = "" ->
    messages (final (handleSubmit env s))
    = messages s ++ [ {| role := user; content := userMessage s |} ]
    /\ (exists t,
          toasts (final (handleSubmit env s)) = toasts s ++ [t]
          /\ Normal (shows t)
             = parseErrorMessage (engine env)
                 (JStr "No response received from AI. This usually indicates an invalid API key or authentication issue.")
                 (Some 401%Z)
          /\ shows t = invalidApiKey
          /\ Toast.type t <> TSuccess)
    /\ userMessage (final (handleSubmit env s)) = userMessage s
    /\ error (final (handleSubmit env s)) = fst invalidApiKey
    /\ isLoading (final (handleSubmit env s)) = false.
Proof.
  intros env s r stream Hvalid Hfetch Hok Hbody Hdone Hempty.
  rewrite (streamed_answer_final env s r stream Hvalid Hfetch Hok Hbody).
  rewrite Hdone, Hempty. cbn [allWhiteSpace].
  split; [reflexivity|].
  split; [|repeat split].
  eexists. split; [reflexivity|]. repeat split. discriminate.
Qed.

Lemma empty_stream_is_reported_as_401_witness :
  (validInputs Sample.ready = true
   /\ concatAll (chunks {| chunks := [""; ""]; ending := Done |}) = "")
  /\ messages (final (handleSubmit
       (Sample.facing (Sample.streaming [""; ""] Done)) Sample.ready))
     = messages Sample.ready ++ [ {| role := user; content := "Hi" |} ].
Proof.
  split; [split; reflexivity|].
  exact (proj1 (empty_stream_is_reported_as_401
                  (Sample.facing (Sample.streaming [""; ""] Done))
                  Sample.ready _ _ eq_refl eq_refl eq_refl eq_refl eq_refl eq_refl)).
Defined.

(** C10. On a 2xx response with a body stream, content that is all
    white space ends the exchange in the very state that no content at
    all ends it in: placeholder removed, the 401 verdict pushed. The
    success notification is pushed, and the pending input cleared,
    exactly when the stream completes with some character that is not
    white space. *)
Theorem blank_stream_is_an_empty_stream :
  forall (env : Env) (s : State) (r : Response.t) (stream : Stream),
    validInputs s = true ->
    fetched env = Resolves r ->
    Response.ok r = true ->
    Response.body r = Some stream ->
    (ending stream = Done ->
     allWhiteSpace (concatAll (chunks stream)) = true ->
     final (handleSubmit env s)
     = final (handleSubmit (answerWith env r {| chunks := []; ending := Done |}) s)
     /\ messages (final (handleSubmit env s))
        = messages s ++ [ {| role := user; content := userMessage s |} ]
     /\ exists t, toasts (final (handleSubmit env s)) = toasts s ++ [t]
                  /\ shows t = invalidApiKey)
    /\ (exists t,
          toasts (final (handleSubmit env s)) = toasts s ++ [t]
          /\ (shows t = ("Message sent successfully!", TSuccess)
              <-> ending stream = Done
                  /\ allWhiteSpace (concatAll (chunks stream)) = false))
    /\ (userMessage (final (handleSubmit env s)) = ""
        <-> ending stream = Done
            /\ allWhiteSpace (concatAll (chunks stream)) = false).
Proof.
  intros env s r stream Hvalid Hfetch Hok Hbody.
  pose proof (validInputs_userMessage s Hvalid) as Hinput.
  rewrite (streamed_answer_final env s r stream Hvalid Hfetch Hok Hbody).
  split; [|split].
  - intros Hdone Hblank.
    rewrite (streamed_answer_final (answerWith env r {| chunks := []; ending := Done |}) s
               _ {| chunks := []; ending := Done |} Hvalid eq_refl Hok eq_refl).
    rewrite Hdone, Hblank. cbn [ending chunks concatAll allWhiteSpace answerWith now].
    split; [reflexivity|].
    split; [reflexivity|].
    eexists; split; reflexivity.
  - destruct (ending stream) as [|e];
      [destruct (allWhiteSpace (concatAll (chunks stream)))|];
      eexists; (split; [reflexivity|]); cbn; split;
      try discriminate; try (intros [? ?]; discriminate); auto.
  - destruct (ending stream) as [|e];
      [destruct (allWhiteSpace (concatAll (chunks stream)))|];
      cbn; split; try (intros [? ?]; discriminate); auto; try contradiction.
Qed.

Lemma blank_stream_is_an_empty_stream_witness :
  (validInputs Sample.ready = true
   /\ allWhiteSpace (concatAll [" "; String "010" ""]) = true)
  /\ final (handleSubmit
       (Sample.facing (Sample.streaming [" "; String "010" ""] Done)) Sample.ready)
     = final (handleSubmit
         (Sample.facing (Sample.streaming [] Done)) Sample.ready).
Proof.
  split; [split; reflexivity|].
  exact (proj1 (proj1 (blank_stream_is_an_empty_stream
                         (Sample.facing (Sample.streaming [" "; String "010" ""] Done))
                         Sample.ready _ _ eq_refl eq_refl eq_refl eq_refl)
                  eq_refl eq_refl)).
Defined.

(** On a body stream no empty assistant message is left behind: the
    conversation gains the user's message alone, or that message and
    an answer that is not blank. *)
Lemma streamed_answer_leaves_no_placeholder
      (env : Env) (s : State) (r : Response.t) (stream : Stream) :
  validInputs s = true ->
  fetched env = Resolves r ->
  Response.ok r = true ->
  Response.body r = Some stream ->
  messages (final (handleSubmit env s))
  = messages s ++ [ {| role := user; content := userMessage s |} ]
  \/ (allWhiteSpace (concatAll (chunks stream)) = false
      /\ messages (final (handleSubmit env s))
         = messages s ++ [ {| role := user; content := userMessage s |};
                           {| role := assistant; content := concatAll (chunks stream) |} ]).
Proof.
  intros Hvalid Hfetch Hok Hbody.
  rewrite (streamed_answer_final env s r stream Hvalid Hfetch Hok Hbody).
  destruct (ending stream) as [|e]; [|left; reflexivity].
  destruct (allWhiteSpace (concatAll (chunks stream))); [left; reflexivity|].
  right. split; [reflexivity|]. cbn. rewrite <- app_assoc. reflexivity.
Qed.

(** No exception leaves [handleSubmit]. *)
Lemma handleSubmit_catches_everything (env : Env) (s : State) :
  uncaught (handleSubmit env s) = None.
Proof.
  unfold handleSubmit. destruct (submitHead (now env) s) as [s' [request|]]; [|reflexivity].
  destruct (settle env (tryBlock env s')) as [s'' escaped] eqn:E. cbn [uncaught].
  assert (H : snd (settle env (tryBlock env s')) = None); [|rewrite E in H; exact H].
  clear E. unfold tryBlock.
  destruct (fetched env) as [m|r]; [reflexivity|].
  destruct (Response.ok r); cbn [negb].
  - destruct (Response.body r) as [stream|]; [|reflexivity].
    destruct (readLoop (chunks stream) "" (addPlaceholder s')) as [text s2].
    unfold afterLoop. destruct (ending stream) as [|e].
    + rewrite onStreamDone_cases. destruct (allWhiteSpace text); reflexivity.
    + rewrite onStreamError_verdict. reflexivity.
  - destruct (settle_onNotOk env r s') as [v [Hv _]]. rewrite Hv. reflexivity.
Qed.

(** C6, at the input where the code departs from it. A read that
    fails with the message "boom", which names no connection, network
    or chunk, is still classified with status 401: the notification is
    the invalid-API-key error, where the rules without a status give
    the generic "Error: boom". *)
Theorem stream_failure_always_classified_as_401 :
  (includes (toLowerCase "boom") "connection"
   || includes (toLowerCase "boom") "network"
   || includes (toLowerCase "boom") "chunk") = false
  /\ map shows (toasts (final (handleSubmit
       (Sample.facing (Sample.streaming ["Hel"] (ReadFails (JError "boom"))))
       Sample.ready)))
     = [("Invalid API key. Please check your OpenAI API key and try again.", TError)]
  /\ parseErrorMessage V8 (JError "boom") None = Normal ("Error: boom", TError).
Proof. repeat split. Qed.

(** Every failed read ends the same way, whatever it carries. *)
Lemma stream_failure_verdict (env : Env) (s : State) (r : Response.t)
      (cs : list string) (streamError : jsval) :
  validInputs s = true ->
  fetched env = Resolves r ->
  Response.ok r = true ->
  Response.body r = Some {| chunks := cs; ending := ReadFails streamError |} ->
  final (handleSubmit env s)
  = setIsLoading false (report (now env) invalidApiKey (started s)).
Proof.
  intros Hvalid Hfetch Hok Hbody.
  rewrite (streamed_answer_final env s r _ Hvalid Hfetch Hok Hbody). reflexivity.
Qed.

(** C7, at the input where the code departs from it. A 2xx response
    without a body ([response.body] is [null], as for a 204) gives no
    reader: the placeholder is appended, the block that would fill or
    remove it is skipped, and the exchange ends with an empty assistant
    message, a cleared input and no notification. *)
Theorem bodyless_answer_leaves_placeholder :
  validInputs Sample.ready = true
  /\ messages (final (handleSubmit
       (Sample.facing (Sample.answering 204 "No Content" None)) Sample.ready))
     = [ {| role := user; content := "Hi" |};
         {| role := assistant; content := "" |} ]
  /\ existsb isEmptyAssistant (messages (final (handleSubmit
       (Sample.facing (Sample.answering 204 "No Content" None)) Sample.ready))) = true
  /\ toasts (final (handleSubmit
       (Sample.facing (Sample.answering 204 "No Content" None)) Sample.ready)) = []
  /\ userMessage (final (handleSubmit
       (Sample.facing (Sample.answering 204 "No Content" None)) Sample.ready)) = ""
  /\ isLoading (final (handleSubmit
       (Sample.facing (Sample.answering 204 "No Content" None)) Sample.ready)) = false.
Proof. repeat split. Qed.

(** ** Notification ids *)

(** Two notifications pushed at the same reading of the clock share
    their id, and dismissing that id removes both. *)
Lemma same_reading_same_id (t : Z) (m1 m2 : string) (k1 k2 : ToastType) (s : State) :
  toasts s = [] ->
  map Toast.id (toasts (addToast t m2 k2 (addToast t m1 k1 s))) = [ofInt t; ofInt t]
  /\ toasts (removeToast (ofInt t) (addToast t m2 k2 (addToast t m1 k1 s))) = [].
Proof.
  intros H. cbn. rewrite H. cbn. rewrite String.eqb_refl. cbn. split; reflexivity.
Qed.

(** Different readings of the clock give different ids. *)
Lemma ofInt_injective (a b : Z) : ofInt a = ofInt b -> a = b.
Proof.
  unfold ofInt. intros H. apply DecimalZ.to_int_inj.
  assert (Hnil : forall z, Z.to_int z <> Decimal.Pos Decimal.Nil
                           /\ Z.to_int z <> Decimal.Neg Decimal.Nil).
  { intros [|p|p]; cbn; split; try discriminate;
      intros E; injection E as E; exact (DecimalPos.Unsigned.to_uint_nonnil p E). }
  destruct (Hnil a) as [Ha1 Ha2]. destruct (Hnil b) as [Hb1 Hb2].
  pose proof (NilZero.isi _ Ha1 Ha2) as Ea.
  pose proof (NilZero.isi _ Hb1 Hb2) as Eb.
  rewrite H in Ea. rewrite Ea in Eb. injection Eb as Eb. exact Eb.
Qed.

Lemma distinct_readings_distinct_ids (t1 t2 : Z) (m1 m2 : string) (k1 k2 : ToastType) (s : State) :
  t1 <> t2 ->
  toasts s = [] ->
  NoDup (map Toast.id (toasts (addToast t2 m2 k2 (addToast t1 m1 k1 s)))).
Proof.
  intros Hne Hs. cbn. rewrite Hs. cbn.
  constructor; [|constructor; [intros []|constructor]].
  intros [E|[]]. apply ofInt_injective in E. congruence.
Qed.

(** C9, at the input where the code departs from it. The id is the
    reading of [Date.now()]: when an exchange reports its success and
    Clear is clicked within the same millisecond, the two notifications
    carry one id, and closing either of them removes both. *)
Theorem same_millisecond_ids_collide :
  map Toast.id (toasts (clearChat 1700000000000
     (final (handleSubmit (Sample.facing (Sample.streaming ["Hi there!"] Done)) Sample.ready))))
  = ["1700000000000"; "1700000000000"]
  /\ map Toast.message (toasts (clearChat 1700000000000
     (final (handleSubmit (Sample.facing (Sample.streaming ["Hi there!"] Done)) Sample.ready))))
     = ["Message sent successfully!"; "Chat cleared"]
  /\ toasts (removeToast "1700000000000" (clearChat 1700000000000
     (final (handleSubmit (Sample.facing (Sample.streaming ["Hi there!"] Done)) Sample.ready))))
     = [].
Proof. repeat split. Qed.

(** ** One exchange at a time *)

Section EventSystem.

Lemma isLoading_settle (env : Env) (f : flow) :
  isLoading (fst (settle env f)) = false.
Proof.
  destruct f as [s|s|e s]; cbn [settle]; try reflexivity.
  destruct (parseErrorMessage (engine env) e None); reflexivity.
Qed.

(** A resumed call either goes on, leaving the flag as it is, or ends,
    lowering it. *)
Lemma isLoading_resume (p : Pending) (s : State) :
  match snd (resume p s) with
  | Some _ => isLoading (fst (resume p s)) = isLoading s
  | None => isLoading (fst (resume p s)) = false
  end.
Proof.
  destruct p as [env | env text [|c rest] e]; cbn [resume].
  - destruct (fetched env) as [m|r]; [apply isLoading_settle|].
    destruct (Response.ok r); [|apply isLoading_settle].
    destruct (Response.body r); [reflexivity | apply isLoading_settle].
  - apply isLoading_settle.
  - reflexivity.
Qed.

Lemma sendDisabled_false (s : State) :
  sendDisabled s = false -> isLoading s = false /\ validInputs s = true.
Proof.
  unfold sendDisabled, validInputs. intros H.
  apply orb_false_iff in H as [H Hkey]. apply orb_false_iff in H as [Hload Hmsg].
  rewrite Hkey, Hmsg. auto.
Qed.

(** An event that neither starts nor resumes a call and leaves the
    flag alone keeps the invariant. *)
Local Ltac flag_untouched Inv :=
  cbn [withState pending state];
  destruct (pending _) as [|? [|? ?]]; exact Inv.

Lemma oneAtATime_step (c : Config) (ev : Event) :
  oneAtATime c -> oneAtATime (step c ev).
Proof.
  unfold oneAtATime. intros Inv.
  destruct ev as [env | k | t | id | v | v | v | v]; cbn [step];
    try flag_untouched Inv.
  - unfold formSubmit. destruct (sendDisabled (state c)) eqn:Hd; [exact Inv|].
    apply sendDisabled_false in Hd as [Hload Hvalid].
    unfold callHandleSubmit. rewrite (submitHead_valid (state c) (now env) Hvalid).
    cbn [pending state].
    destruct (pending c) as [|p [|q ps]]; [reflexivity | congruence | contradiction].
  - destruct (pending c) as [|p [|q ps]]; [ | | contradiction].
    + destruct k; exact Inv.
    + destruct k as [|k]; cbn [resumeAt].
      * pose proof (isLoading_resume p (state c)) as H.
        destruct (resume p (state c)) as [s' [q|]]; cbn [fst snd pending state] in *;
          congruence.
      * destruct k; exact Inv.
  - destruct (isLoading (state c)) eqn:Hl; [rewrite Hl; exact Inv|].
    cbn [withState pending state setUserMessage isLoading]. rewrite Hl.
    destruct (pending c) as [|p [|q ps]]; exact Inv.
Qed.

Lemma oneAtATime_reachable (c : Config) : reachable c -> oneAtATime c.
Proof.
  induction 1 as [|c ev _ IH]; [reflexivity | apply oneAtATime_step, IH].
Qed.

Lemma reachable_run (evs : list Event) (c : Config) :
  reachable c -> reachable (run evs c).
Proof.
  revert c. induction evs as [|ev evs IH]; intros c H; [exact H|].
  apply IH. constructor. exact H.
Qed.

End EventSystem.

(** C8 as it is written fails on [handleSubmit] itself, which never
    looks at [isLoading]: called while the flag is up, with valid
    inputs, it appends the message and issues a second request. *)
Lemma handleSubmit_ignores_the_flag :
  isLoading Sample.busy = true
  /\ requests (handleSubmit (Sample.facing (Rejects "Failed to fetch")) Sample.busy)
     = [requestOf Sample.busy]
  /\ messages (final (handleSubmit (Sample.facing (Sample.streaming ["Hello"] Done)) Sample.busy))
     <> messages Sample.busy
  /\ pending (callHandleSubmit (Sample.facing (Sample.streaming ["b"] Done))
                (callHandleSubmit (Sample.facing (Sample.streaming ["a"] Done))
                   {| state := Sample.ready; pending := []; sent := [] |}))
     = [ AwaitFetch (Sample.facing (Sample.streaming ["a"] Done));
         AwaitFetch (Sample.facing (Sample.streaming ["b"] Done)) ]
  /\ sent (callHandleSubmit (Sample.facing (Sample.streaming ["b"] Done))
             (callHandleSubmit (Sample.facing (Sample.streaming ["a"] Done))
                {| state := Sample.ready; pending := []; sent := [] |}))
     = [requestOf Sample.ready; requestOf Sample.ready].
Proof.
  split; [reflexivity|]. split; [reflexivity|]. split; [discriminate|].
  split; reflexivity.
Qed.

(** C8, as the code has it. The guard is the form's: the Send button
    is disabled while [isLoading] is up. In every configuration the
    page can reach, at most one call of [handleSubmit] is suspended, the
    flag is up exactly when one is, and submitting the form then is
    dropped: no request is issued, nothing is queued and the state is
    unchanged. *)
Theorem form_admits_one_exchange_at_a_time :
  forall c : Config,
    reachable c ->
    (List.length (pending c) <= 1)%nat
    /\ (isLoading (state c) = true <-> pending c <> [])
    /\ forall env, isLoading (state c) = true -> step c (Submit env) = c.
Proof.
  intros c Hc. apply oneAtATime_reachable in Hc. unfold oneAtATime in Hc.
  split; [|split].
  - destruct (pending c) as [|p [|q ps]]; cbn; [lia | lia | contradiction].
  - destruct (pending c) as [|p [|q ps]]; [ | | contradiction].
    + split; [congruence | intros H; contradiction H; reflexivity].
    + split; [discriminate | intros _; exact Hc].
  - intros env Hl. cbn [step]. unfold formSubmit, sendDisabled. rewrite Hl. reflexivity.
Qed.

Lemma form_admits_one_exchange_at_a_time_witness :
  (reachable (run Sample.midExchange initialConfig)
   /\ isLoading (state (run Sample.midExchange initialConfig)) = true)
  /\ step (run Sample.midExchange initialConfig)
          (Submit (Sample.facing (Rejects "Failed to fetch")))
     = run Sample.midExchange initialConfig.
Proof.
  split; [split; [apply reachable_run; constructor | reflexivity]|].
  exact (proj2 (proj2 (form_admits_one_exchange_at_a_time
                         (run Sample.midExchange initialConfig)
                         (reachable_run Sample.midExchange initialConfig reachable_init)))
               (Sample.facing (Rejects "Failed to fetch")) eq_refl).
Defined.

(** ** The handler as a run of the event system *)

Lemma run_reads (env : Env) (e : StreamEnd) (cs : list string) :
  forall (text : string) (s : State) (out : list Request.t),
    run (repeat (Resume 0) (S (List.length cs)))
        {| state := s; pending := [AwaitRead env text cs e]; sent := out |}
    = {| state := fst (settle env (afterLoop env e (fst (readLoop cs text s))
                                               (snd (readLoop cs text s))));
         pending := []; sent := out |}.
Proof.
  induction cs as [|c cs IH]; intros text s out; [reflexivity|].
  change (run (repeat (Resume 0) (S (List.length (c :: cs)))) ?x)
    with (run (repeat (Resume 0) (S (List.length cs))) (step x (Resume 0))).
  cbn [step pending state resumeAt resume onChunk sent].
  rewrite IH. reflexivity.
Qed.

(** X11. Submitting the form when nothing is under way and then
    letting the call run through its awaits, one resumption per await,
    ends in the state that [handleSubmit] computes, with its request
    sent and nothing left suspended. *)
Lemma exchange_as_events (env : Env) (c : Config) :
  pending c = [] ->
  sendDisabled (state c) = false ->
  run (Submit env :: repeat (Resume 0) (awaits env)) c
  = {| state := final (handleSubmit env (state c));
       pending := [];
       sent := sent c ++ requests (handleSubmit env (state c)) |}.
Proof.
  intros Hidle Hd. destruct (sendDisabled_false _ Hd) as [_ Hvalid].
  rewrite (handleSubmit_valid env (state c) Hvalid). cbn [final requests].
  change (run (Submit env :: ?l) c) with (run l (formSubmit env c)).
  unfold formSubmit. rewrite Hd.
  unfold callHandleSubmit. rewrite (submitHead_valid (state c) (now env) Hvalid), Hidle.
  cbn [app]. unfold awaits, tryBlock.
  destruct (fetched env) as [m|r] eqn:Hf.
  - cbn [repeat run fold_left step pending state resumeAt resume sent].
    unfold tryBlock. rewrite Hf. reflexivity.
  - destruct (Response.ok r) eqn:Hok; cbn [negb].
    + destruct (Response.body r) as [stream|] eqn:Hb.
      * change (run (repeat (Resume 0) (S (S ?n))) ?x)
          with (run (repeat (Resume 0) (S n)) (step x (Resume 0))).
        cbn [step pending state resumeAt resume sent]. rewrite Hf, Hok, Hb.
        rewrite run_reads.
        destruct (readLoop (chunks stream) "" (addPlaceholder (started (state c)))).
        reflexivity.
      * cbn [repeat run fold_left step pending state resumeAt resume sent].
        unfold tryBlock. rewrite Hf, Hok, Hb. reflexivity.
    + cbn [repeat run fold_left step pending state resumeAt resume sent].
      unfold tryBlock. rewrite Hf, Hok. reflexivity.
Qed.

(** * Further properties of the code *)

(** ** The notification queue *)

Section Queue.

Lemma filter_twice {A : Type} (f g : A -> bool) (l : list A) :
  filter f (filter g l) = filter (fun x => g x && f x) l.
Proof.
  induction l as [|x l IH]; [reflexivity|].
  cbn [filter]. destruct (g x); cbn [filter andb]; [destruct (f x)|]; rewrite IH; reflexivity.
Qed.

Lemma filter_all {A : Type} (f : A -> bool) (l : list A) :
  (forall x, In x l -> f x = true) -> filter f l = l.
Proof.
  induction l as [|x l IH]; intros H; [reflexivity|].
  cbn [filter]. rewrite (H x (or_introl eq_refl)), IH; [reflexivity|].
  intros y Hy. apply H. right. exact Hy.
Qed.

Lemma setToasts_same (s : State) : setToasts (fun _ => toasts s) s = s.
Proof. destruct s; reflexivity. Qed.

Lemma setToasts_ext (f g : list Toast.t -> list Toast.t) (s : State) :
  f (toasts s) = g (toasts s) -> setToasts f s = setToasts g s.
Proof. intros H. unfold setToasts. rewrite H. reflexivity. Qed.

End Queue.

(** X1. [removeToast] keeps exactly the notifications with another id,
    in their order; removing the same id again changes nothing more, and
    two removals give the same queue in either order (a timer and a
    click may come in any order, or both for one toast). *)
Theorem removeToast_is_idempotent_and_commutes :
  forall (a b : string) (s : State),
    (forall t, In t (toasts (removeToast a s)) <-> In t (toasts s) /\ Toast.id t <> a)
    /\ removeToast a (removeToast a s) = removeToast a s
    /\ removeToast a (removeToast b s) = removeToast b (removeToast a s).
Proof.
  intros a b s. split; [|split].
  - intros t. cbn [removeToast setToasts toasts]. rewrite filter_In.
    rewrite negb_true_iff, String.eqb_neq. tauto.
  - unfold removeToast, setToasts. cbn [toasts messages userMessage developerMessage
                                         apiKey model isLoading error].
    rewrite filter_twice. f_equal. apply filter_ext. intros t.
    destruct (negb (Toast.id t =? a)%string); reflexivity.
  - unfold removeToast, setToasts. cbn [toasts messages userMessage developerMessage
                                         apiKey model isLoading error].
    rewrite !filter_twice. f_equal. apply filter_ext. intros t. apply andb_comm.
Qed.

(** X2. Pushing a notification and dismissing it gives back the state
    there was, provided no notification of the queue already carries the
    id that the clock gives. *)
Theorem push_then_dismiss_restores :
  forall (t : Z) (message : string) (type : ToastType) (s : State),
    (forall x, In x (toasts s) -> Toast.id x <> ofInt t) ->
    removeToast (ofInt t) (addToast t message type s) = s.
Proof.
  intros t message type s Hfresh.
  rewrite <- (setToasts_same s) at 2.
  unfold removeToast, addToast, setToasts.
  cbn [toasts messages userMessage developerMessage apiKey model isLoading error].
  f_equal. rewrite filter_app. cbn [filter Toast.id].
  rewrite String.eqb_refl. cbn [negb]. rewrite app_nil_r.
  apply filter_all. intros x Hx. apply negb_true_iff, String.eqb_neq, Hfresh, Hx.
Qed.

Lemma push_then_dismiss_restores_witness :
  (forall x, In x (toasts (addToast 1 "Chat cleared" TInfo Sample.ready)) ->
             Toast.id x <> ofInt 2)
  /\ removeToast (ofInt 2)
       (addToast 2 "Please enter a message" TWarning
          (addToast 1 "Chat cleared" TInfo Sample.ready))
     = addToast 1 "Chat cleared" TInfo Sample.ready.
Proof.
  assert (H : forall x, In x (toasts (addToast 1 "Chat cleared" TInfo Sample.ready)) ->
                        Toast.id x <> ofInt 2).
  { intros x [<-|[]]. discriminate. }
  split; [exact H|].
  exact (push_then_dismiss_restores 2 "Please enter a message" TWarning
           (addToast 1 "Chat cleared" TInfo Sample.ready) H).
Defined.

(** ** The classifier *)

Section Classifier.

(** The verdict on a text is one of seven. *)
Lemma classifyText_range (text : string) (status : option Z) :
  In (classifyText text status)
     [ ("Invalid API key. Please check your OpenAI API key and try again.", TError);
       ("Rate limit exceeded or insufficient quota. Please check your OpenAI account.", TWarning);
       ("Invalid request. Please check your input and selected model.", TError);
       ("Model not found. Please select a different model.", TError);
       ("OpenAI service is temporarily unavailable. Please try again later.", TError);
       ("Network error. Please check your internet connection and try again.", TError);
       (("Error: " ++ text)%string, TError) ].
Proof.
  unfold classifyText.
  repeat match goal with
         | |- context [if ?b then _ else _] => destruct b
         end; cbn [In]; tauto.
Qed.

Lemma toLowerCase_idempotent (s : string) : toLowerCase (toLowerCase s) = toLowerCase s.
Proof.
  induction s as [|c t IH]; [reflexivity|]. cbn [toLowerCase]. rewrite IH. f_equal.
  destruct c as [[] [] [] [] [] [] [] []]; reflexivity.
Qed.

End Classifier.

(** X3. Whatever [parseErrorMessage] returns is one of the six fixed
    messages that [errorScenarios] lists after [missingApiKey], or the
    default ["Error: "] followed by the text of the failure; the
    severity is a warning exactly for the rate-limit message and an
    error otherwise, never success or info. *)
Theorem classifier_range :
  forall (engine : Engine) (e : jsval) (status : option Z) (m : string) (k : ToastType),
    parseErrorMessage engine e status = Normal (m, k) ->
    ((exists key, key <> "missingApiKey"
                  /\ ErrorHandlingDemo.lookup key ErrorHandlingDemo.errorScenarios = Some m)
     \/ exists text, errorStringOf e = JStr text /\ m = ("Error: " ++ text)%string)
    /\ (k = TWarning
        <-> ErrorHandlingDemo.lookup "rateLimit" ErrorHandlingDemo.errorScenarios = Some m)
    /\ (k = TError \/ k = TWarning).
Proof.
  intros engine e status m k H. rewrite parseErrorMessage_cases in H.
  assert (Hfixed :
    In (m, k)
       [ ("Invalid API key. Please check your OpenAI API key and try again.", TError);
         ("Rate limit exceeded or insufficient quota. Please check your OpenAI account.", TWarning);
         ("Invalid request. Please check your input and selected model.", TError);
         ("Model not found. Please select a different model.", TError);
         ("OpenAI service is temporarily unavailable. Please try again later.", TError);
         ("Network error. Please check your internet connection and try again.", TError) ]
    \/ exists text, errorStringOf e = JStr text /\ (m, k) = (("Error: " ++ text)%string, TError)).
  { destruct (errorStringOf e) as [| |b|n|text|msg|d] eqn:Es;
      try (destruct (match status with Some k0 => (k0 =? 401)%Z | None => false end);
           [injection H as <- <-; left; left; reflexivity | discriminate H]).
    injection H as H. pose proof (classifyText_range text status) as Hin. rewrite H in Hin.
    cbn [In] in Hin.
    destruct Hin as [E|[E|[E|[E|[E|[E|[E|[]]]]]]]];
      try (left; rewrite <- E; cbn [In]; tauto).
    right. exists text. split; [reflexivity | symmetry; exact E]. }
  destruct Hfixed as [Hin | [text [Es E]]].
  - cbn [In] in Hin.
    destruct Hin as [E|[E|[E|[E|[E|[E|[]]]]]]]; injection E as <- <-;
      (split; [left|split; [split; [try discriminate; reflexivity | try discriminate; reflexivity] | auto]]).
    + exists "invalidApiKey". split; [discriminate | reflexivity].
    + exists "rateLimit". split; [discriminate | reflexivity].
    + exists "badRequest". split; [discriminate | reflexivity].
    + exists "modelNotFound". split; [discriminate | reflexivity].
    + exists "serverError". split; [discriminate | reflexivity].
    + exists "networkError". split; [discriminate | reflexivity].
  - injection E as -> ->. split; [right; exists text; auto|].
    split; [split; discriminate | left; reflexivity].
Qed.

Lemma classifier_range_witness :
  parseErrorMessage V8 (JObject (JStr "Quota exceeded")) (Some 503%Z)
  = Normal ("Rate limit exceeded or insufficient quota. Please check your OpenAI account.", TWarning)
  /\ (TWarning = TWarning
      <-> ErrorHandlingDemo.lookup "rateLimit" ErrorHandlingDemo.errorScenarios
          = Some "Rate limit exceeded or insufficient quota. Please check your OpenAI account.").
Proof.
  split; [reflexivity|].
  exact (proj1 (proj2 (classifier_range V8 (JObject (JStr "Quota exceeded")) (Some 503%Z)
                         _ _ eq_refl))).
Defined.

(** X4. The classifier looks at letters only up to case: two texts
    with the same lower-case form get the same severity and the same
    message, the default message apart, which quotes each text as it
    is. *)
Theorem classifier_ignores_case :
  forall (engine : Engine) (a b : string) (status : option Z),
    toLowerCase a = toLowerCase b ->
    exists va vb,
      parseErrorMessage engine (JStr a) status = Normal va
      /\ parseErrorMessage engine (JError b) status = Normal vb
      /\ snd va = snd vb
      /\ (fst va = fst vb
          \/ (fst va = ("Error: " ++ a)%string /\ fst vb = ("Error: " ++ b)%string)).
Proof.
  intros engine a b status H.
  exists (classifyText a status), (classifyText b status).
  split; [reflexivity|]. split; [reflexivity|].
  unfold classifyText. rewrite H.
  repeat match goal with
         | |- context [if ?c then _ else _] => destruct c
         end; cbn [fst snd]; auto.
Qed.

Lemma classifier_ignores_case_witness :
  toLowerCase "RATE LIMIT reached" = toLowerCase "Rate Limit Reached"
  /\ exists va vb,
      parseErrorMessage V8 (JStr "RATE LIMIT reached") None = Normal va
      /\ parseErrorMessage V8 (JError "Rate Limit Reached") None = Normal vb
      /\ snd va = snd vb
      /\ (fst va = fst vb
          \/ (fst va = ("Error: " ++ "RATE LIMIT reached")%string
              /\ fst vb = ("Error: " ++ "Rate Limit Reached")%string)).
Proof.
  split; [reflexivity|].
  exact (classifier_ignores_case V8 "RATE LIMIT reached" "Rate Limit Reached" None eq_refl).
Defined.

(** X5. [parseErrorMessage] throws in one situation only: its argument
    is an object whose [detail] is truthy and not a string, and the
    status is not 401. What it throws then is the engine's [TypeError]
    for the call of [toLowerCase]. On an [Error], a string, or any
    value with status 401, it returns. *)
Theorem classifier_throws_only_on_untyped_detail :
  forall (engine : Engine) (e : jsval) (status : option Z),
    (forall x, parseErrorMessage engine e status = Throw x ->
               x = JError (msgNotAFunction engine))
    /\ ((exists x, parseErrorMessage engine e status = Throw x)
        <-> status <> Some 401%Z
            /\ exists d, e = JObject d /\ truthyVal d = true /\ forall t, d <> JStr t).
Proof.
  intros engine e status. rewrite parseErrorMessage_cases.
  destruct (match status with Some k => (k =? 401)%Z | None => false end) eqn:Hs.
  - apply status_is_401 in Hs. split.
    + intros x H. destruct (errorStringOf e); discriminate H.
    + split.
      * intros [x H]. destruct (errorStringOf e); discriminate H.
      * intros [Hne _]. contradiction.
  - assert (Hne : status <> Some 401%Z).
    { intros E. apply status_is_401 in E. congruence. }
    split.
    + intros x H. destruct (errorStringOf e); congruence.
    + split.
      * intros [x H]. split; [exact Hne|].
        destruct e as [| |b|n|t|m|d]; try discriminate H.
        exists d. split; [reflexivity|].
        unfold errorStringOf, orElse, optDetail in H.
        destruct (truthyVal d) eqn:Ht; [|discriminate H].
        split; [reflexivity|]. intros t ->. discriminate H.
      * intros [_ [d [-> [Ht Hd]]]].
        unfold errorStringOf, orElse, optDetail. rewrite Ht.
        destruct d; try (eexists; reflexivity). exfalso. eapply Hd. reflexivity.
Qed.

Lemma classifier_throws_only_on_untyped_detail_witness :
  (exists x, parseErrorMessage V8 (JObject (JNum 5)) (Some 429%Z) = Throw x)
  /\ Some 429%Z <> Some 401%Z
  /\ exists d, JObject (JNum 5) = JObject d /\ truthyVal d = true /\ forall t, d <> JStr t.
Proof.
  assert (H : exists x, parseErrorMessage V8 (JObject (JNum 5)) (Some 429%Z) = Throw x)
    by (eexists; reflexivity).
  split; [exact H|].
  exact (proj1 (proj2 (classifier_throws_only_on_untyped_detail
                         V8 (JObject (JNum 5)) (Some 429%Z))) H).
Defined.

(** ** The ways a submit ends *)

Section Endings.

Variable env : Env.
Variable s : State.

Lemma rollback_state (v : string * ToastType) :
  setIsLoading false (dropLast (report (now env) v (started s)))
  = setIsLoading false (report (now env) v s).
Proof.
  by_cells. apply removelast_last.
Qed.

Lemma verdict_severity (e : jsval) (status : option Z) (v : string * ToastType) :
  parseErrorMessage (engine env) e status = Normal v ->
  snd v = TError \/ snd v = TWarning.
Proof.
  rewrite parseErrorMessage_cases. intros H.
  destruct (errorStringOf e) as [| |b|n|text|msg|d];
    try (destruct (match status with Some k => (k =? 401)%Z | None => false end);
         [injection H as <-; left; reflexivity | discriminate H]).
  injection H as <-. pose proof (classifyText_range text status) as Hin.
  cbn [In] in Hin.
  destruct Hin as [E|[E|[E|[E|[E|[E|[E|[]]]]]]]]; rewrite <- E; cbn [snd]; auto.
Qed.

(** The failure branch reports a verdict of the classifier. *)
Lemma settle_onNotOk_source (r : Response.t) (s' : State) :
  exists v e status,
    parseErrorMessage (engine env) e status = Normal v
    /\ settle env (onNotOk env r s')
       = (setIsLoading false (dropLast (report (now env) v s')), None).
Proof.
  unfold onNotOk.
  destruct (getDetail (engine env) (errorDataOf r)) as [d|x] eqn:Hd.
  - destruct (parseErrorMessage (engine env) (orElse d (errorDataOf r))
                (Some (Response.status r))) as [v|x] eqn:Hp.
    + exists v, (orElse d (errorDataOf r)), (Some (Response.status r)).
      split; [exact Hp | reflexivity].
    + rewrite parseErrorMessage_cases in Hp.
      assert (Hx : x = JError (msgNotAFunction (engine env))).
      { destruct (errorStringOf (orElse d (errorDataOf r)));
          try discriminate Hp;
          destruct (match Some (Response.status r) with
                    | Some k => (k =? 401)%Z | None => false end);
          congruence. }
      subst x.
      exists (classifyText (msgNotAFunction (engine env)) None),
             (JError (msgNotAFunction (engine env))), None.
      split; reflexivity.
  - assert (Hx : x = JError (msgNullProperty (engine env))).
    { unfold getDetail in Hd. destruct (errorDataOf r); congruence. }
    subst x.
    exists (classifyText (msgNullProperty (engine env)) None),
           (JError (msgNullProperty (engine env))), None.
    split; reflexivity.
Qed.

(** Every valid submit ends in one of four ways: rolled back with a
    verdict; the user's message kept with the 401 verdict; an answer and
    the success notification; or, without a body, a bare placeholder. *)
Lemma valid_submit_endings :
  validInputs s = true ->
  (exists v, (snd v = TError \/ snd v = TWarning)
             /\ final (handleSubmit env s) = setIsLoading false (report (now env) v s))
  \/ final (handleSubmit env s)
     = setIsLoading false (report (now env) invalidApiKey (started s))
  \/ (exists cs,
        final (handleSubmit env s)
        = setIsLoading false
            (setUserMessage ""
               (addToast (now env) "Message sent successfully!" TSuccess (streamed cs s))))
  \/ final (handleSubmit env s)
     = setIsLoading false (setUserMessage "" (addPlaceholder (started s))).
Proof.
  intros Hvalid.
  destruct (fetched env) as [m|r] eqn:Hf.
  - left. exists (classifyText m None). split.
    + apply (verdict_severity (JError m) None). reflexivity.
    + rewrite (handleSubmit_valid env s Hvalid). cbn [final].
      unfold tryBlock. rewrite Hf. cbn [settle fst].
      rewrite parseErrorMessage_Error. cbn [fst]. apply rollback_state.
  - destruct (Response.ok r) eqn:Hok.
    + destruct (Response.body r) as [stream|] eqn:Hb.
      * rewrite (streamed_answer_final env s r stream Hvalid Hf Hok Hb).
        destruct (ending stream);
          [destruct (allWhiteSpace (concatAll (chunks stream)))|]; eauto.
      * right; right; right.
        rewrite (handleSubmit_valid env s Hvalid). cbn [final].
        unfold tryBlock. rewrite Hf, Hok, Hb. reflexivity.
    + left. destruct (settle_onNotOk_source r (started s)) as [v [e [st [Hp Hs]]]].
      exists v. split; [exact (verdict_severity e st v Hp)|].
      rewrite (handleSubmit_valid env s Hvalid). cbn [final].
      unfold tryBlock. rewrite Hf, Hok. cbn [negb]. rewrite Hs. cbn [fst].
      apply rollback_state.
Qed.

End Endings.

(** X6. When a valid submit fails before any streaming (the request
    is rejected, or the response is not 2xx), the component is afterwards
    exactly as it was before the submit, except that [isLoading] is
    false, one notification is appended and [error] shows its message:
    the conversation, the typed message, the key, the model and the
    system message are untouched. For a rejected request the notification
    is the classifier's verdict on the failure, without a status. *)
Theorem failure_before_streaming_restores_state :
  forall (env : Env) (s : State),
    validInputs s = true ->
    (forall r, fetched env = Resolves r -> Response.ok r = false) ->
    exists v,
      final (handleSubmit env s) = setIsLoading false (report (now env) v s)
      /\ (snd v = TError \/ snd v = TWarning)
      /\ forall m, fetched env = Rejects m ->
                   parseErrorMessage (engine env) (JError m) None = Normal v.
Proof.
  intros env s Hvalid Hfail.
  rewrite (handleSubmit_valid env s Hvalid). cbn [final]. unfold tryBlock.
  destruct (fetched env) as [m|r] eqn:Hf.
  - exists (classifyText m None). cbn [settle fst].
    rewrite parseErrorMessage_Error. cbn [fst].
    split; [apply rollback_state|]. split.
    + apply (verdict_severity env (JError m) None). reflexivity.
    + intros m' E. injection E as <-. reflexivity.
  - rewrite (Hfail r eq_refl). cbn [negb].
    destruct (settle_onNotOk_source env r (started s)) as [v [e [st [Hp Hs]]]].
    exists v. rewrite Hs. cbn [fst].
    split; [apply rollback_state|]. split.
    + exact (verdict_severity env e st v Hp).
    + intros m' E. discriminate E.
Qed.

Lemma failure_before_streaming_restores_state_witness :
  (validInputs Sample.ready = true
   /\ forall r, fetched (Sample.facing (Rejects "Failed to fetch")) = Resolves r ->
                Response.ok r = false)
  /\ exists v,
      final (handleSubmit (Sample.facing (Rejects "Failed to fetch")) Sample.ready)
      = setIsLoading false (report 1700000000000 v Sample.ready)
      /\ (snd v = TError \/ snd v = TWarning)
      /\ forall m, fetched (Sample.facing (Rejects "Failed to fetch")) = Rejects m ->
                   parseErrorMessage V8 (JError m) None = Normal v.
Proof.
  assert (H : forall r, fetched (Sample.facing (Rejects "Failed to fetch")) = Resolves r ->
                        Response.ok r = false) by (intros r E; discriminate E).
  split; [split; [reflexivity | exact H]|].
  exact (failure_before_streaming_restores_state
           (Sample.facing (Rejects "Failed to fetch")) Sample.ready eq_refl H).
Defined.

Lemma extendsBy_refl {A : Type} (n : nat) (l : list A) : extendsBy n l l.
Proof. exists []. split; [symmetry; apply app_nil_r | cbn; lia]. Qed.

Lemma extendsBy_app {A : Type} (n : nat) (l more : list A) :
  (List.length more <= n)%nat -> extendsBy n l (l ++ more).
Proof. intros H. exists more. auto. Qed.

(** X7. What a call of [handleSubmit] never does, whatever the inputs
    and the network: it does not change the key, the model or the
    system message; it does not alter or drop a message or a
    notification that was there (it appends at most two messages and at
    most one notification); it lets no exception escape; it issues at
    most one request; and after a valid submit [isLoading] is false. *)
Theorem handleSubmit_frame :
  forall (env : Env) (s : State),
    apiKey (final (handleSubmit env s)) = apiKey s
    /\ model (final (handleSubmit env s)) = model s
    /\ developerMessage (final (handleSubmit env s)) = developerMessage s
    /\ extendsBy 2 (messages s) (messages (final (handleSubmit env s)))
    /\ extendsBy 1 (toasts s) (toasts (final (handleSubmit env s)))
    /\ uncaught (handleSubmit env s) = None
    /\ (List.length (requests (handleSubmit env s)) <= 1)%nat
    /\ isLoading (final (handleSubmit env s))
       = if validInputs s then false else isLoading s.
Proof.
  intros env s.
  assert (Hone : forall t : Toast.t, (List.length [t] <= 1)%nat) by (intros; cbn; lia).
  destruct (validInputs s) eqn:Hvalid.
  - split; [|split; [|split; [|split; [|split; [|split; [|split]]]]]];
      try apply handleSubmit_catches_everything;
      try (rewrite (handleSubmit_valid env s Hvalid); cbn; lia).
    all: destruct (valid_submit_endings env s Hvalid)
      as [[v [_ ->]] | [-> | [[cs ->] | ->]]]; try reflexivity.
    all: cbn [messages toasts setIsLoading setUserMessage setError setToasts setMessages
              report addToast started streamed addPlaceholder].
    all: try apply extendsBy_refl; try (apply extendsBy_app; cbn; lia).
    + rewrite <- app_assoc. apply extendsBy_app. cbn; lia.
    + rewrite <- app_assoc. apply extendsBy_app. cbn; lia.
  - unfold handleSubmit, submitHead. unfold validInputs in Hvalid.
    destruct (isBlank (apiKey s)); [|destruct (isBlank (userMessage s)); [|discriminate Hvalid]].
    all: cbn; repeat split; try apply extendsBy_refl; try (apply extendsBy_app; cbn; lia); lia.
Qed.

(** X8. After a valid submit the [error] text and the notification
    agree: either nothing was pushed and [error] is empty, or one
    notification was pushed, stamped with the clock reading, and [error]
    is empty if it is the success notification and is its message
    otherwise. *)
Theorem error_text_matches_notification :
  forall (env : Env) (s : State),
    validInputs s = true ->
    (toasts (final (handleSubmit env s)) = toasts s
     /\ error (final (handleSubmit env s)) = "")
    \/ exists t,
        toasts (final (handleSubmit env s)) = toasts s ++ [t]
        /\ Toast.id t = ofInt (now env)
        /\ ((shows t = ("Message sent successfully!", TSuccess)
             /\ error (final (handleSubmit env s)) = "")
            \/ (Toast.type t <> TSuccess
                /\ error (final (handleSubmit env s)) = Toast.message t)).
Proof.
  intros env s Hvalid.
  destruct (valid_submit_endings env s Hvalid)
    as [[v [Hv ->]] | [-> | [[cs ->] | ->]]].
  - right. eexists. split; [reflexivity|]. split; [reflexivity|]. right.
    cbn. split; [destruct Hv as [-> | ->]; discriminate | reflexivity].
  - right. eexists. split; [reflexivity|]. split; [reflexivity|]. right.
    cbn. split; [discriminate | reflexivity].
  - right. eexists. split; [reflexivity|]. split; [reflexivity|]. left.
    split; reflexivity.
  - left. split; reflexivity.
Qed.

Lemma error_text_matches_notification_witness :
  validInputs Sample.ready = true
  /\ error (final (handleSubmit
       (Sample.facing (Sample.answering 404 "Not Found" None)) Sample.ready))
     = "Model not found. Please select a different model.".
Proof.
  split; [reflexivity|].
  destruct (error_text_matches_notification
              (Sample.facing (Sample.answering 404 "Not Found" None)) Sample.ready eq_refl)
    as [[H _] | [t [Ht [_ [[Hs _] | [_ He]]]]]].
  - discriminate H.
  - cbn in Ht. injection Ht as <-. discriminate Hs.
  - rewrite He. cbn in Ht. injection Ht as <-. reflexivity.
Defined.

Lemma handleSubmit_frame_witness :
  extendsBy 2 (messages Sample.ready)
    (messages (final (handleSubmit (Sample.facing (Sample.streaming ["Hello"] Done))
                        Sample.ready)))
  /\ isLoading (final (handleSubmit (Sample.facing (Sample.streaming ["Hello"] Done))
                         Sample.busy)) = false.
Proof.
  split.
  - exact (proj1 (proj2 (proj2 (proj2
             (handleSubmit_frame (Sample.facing (Sample.streaming ["Hello"] Done))
                Sample.ready))))).
  - exact (proj2 (proj2 (proj2 (proj2 (proj2 (proj2 (proj2
             (handleSubmit_frame (Sample.facing (Sample.streaming ["Hello"] Done))
                Sample.busy)))))))).
Defined.

(** X9. When a read fails, whatever was streamed before and whatever
    the failure is, the partial answer is discarded and the user's
    message stays in the conversation, the typed message stays in the
    input, and one invalid-API-key error is pushed and shown as
    [error]. *)
Theorem read_failure_keeps_user_message :
  forall (env : Env) (s : State) (r : Response.t) (cs : list string) (streamError : jsval),
    validInputs s = true ->
    fetched env = Resolves r ->
    Response.ok r = true ->
    Response.body r = Some {| chunks := cs; ending := ReadFails streamError |} ->
    messages (final (handleSubmit env s))
    = messages s ++ [ {| role := user; content := userMessage s |} ]
    /\ userMessage (final (handleSubmit env s)) = userMessage s
    /\ toasts (final (handleSubmit env s))
       = toasts s ++ [ {| Toast.id := ofInt (now env);
                          Toast.message := fst invalidApiKey;
                          Toast.type := TError |} ]
    /\ error (final (handleSubmit env s)) = fst invalidApiKey
    /\ List.length (partials (handleSubmit env s)) = List.length cs.
Proof.
  intros env s r cs streamError Hvalid Hf Hok Hb.
  rewrite (streamed_answer_final env s r _ Hvalid Hf Hok Hb). cbn [ending].
  repeat split.
  rewrite (handleSubmit_valid env s Hvalid). cbn [partials].
  unfold streamStates. rewrite Hf, Hok, Hb. apply readTrace_length.
Qed.

Lemma read_failure_keeps_user_message_witness :
  validInputs Sample.ready = true
  /\ messages (final (handleSubmit
       (Sample.facing (Sample.streaming ["Hel"; "lo"] (ReadFails (JStr "network down"))))
       Sample.ready))
     = messages Sample.ready ++ [ {| role := user; content := "Hi" |} ].
Proof.
  split; [reflexivity|].
  exact (proj1 (read_failure_keeps_user_message
                  (Sample.facing (Sample.streaming ["Hel"; "lo"] (ReadFails (JStr "network down"))))
                  Sample.ready _ ["Hel"; "lo"] (JStr "network down")
                  eq_refl eq_refl eq_refl eq_refl)).
Defined.

(** X10. Every request that [handleSubmit] issues is built from the
    fields as typed: the message and the key are sent untrimmed and are
    never blank, the model is sent as selected, and the system message
    is never empty: it is the typed one, or the default when nothing is
    typed. *)
Theorem issued_request_is_well_formed :
  forall (env : Env) (s : State) (q : Request.t),
    In q (requests (handleSubmit env s)) ->
    Request.user_message q = userMessage s
    /\ Request.api_key q = apiKey s
    /\ Request.model q = model s
    /\ allWhiteSpace (Request.user_message q) = false
    /\ allWhiteSpace (Request.api_key q) = false
    /\ Request.developer_message q <> ""
    /\ (developerMessage s <> "" -> Request.developer_message q = developerMessage s)
    /\ (developerMessage s = "" ->
        Request.developer_message q = "You are a helpful assistant.").
Proof.
  intros env s q Hq.
  destruct (validInputs s) eqn:Hvalid.
  - rewrite (handleSubmit_valid env s Hvalid) in Hq. cbn [requests In] in Hq.
    destruct Hq as [<-|[]].
    apply validInputs_fields in Hvalid as [Hk Hm].
    rewrite isBlank_allWhiteSpace in Hk, Hm.
    unfold requestOf; cbn [Request.user_message Request.api_key Request.model
                             Request.developer_message].
    repeat split; auto.
    + destruct (developerMessage s); cbn; discriminate.
    + destruct (developerMessage s); [contradiction | reflexivity].
    + intros ->. reflexivity.
  - exfalso. unfold handleSubmit, submitHead in Hq. unfold validInputs in Hvalid.
    destruct (isBlank (apiKey s)); [exact Hq|].
    destruct (isBlank (userMessage s)); [exact Hq | discriminate Hvalid].
Qed.

Lemma issued_request_is_well_formed_witness :
  In (requestOf Sample.ready)
     (requests (handleSubmit (Sample.facing (Rejects "Failed to fetch")) Sample.ready))
  /\ Request.developer_message (requestOf Sample.ready) = "You are a helpful assistant.".
Proof.
  assert (H : In (requestOf Sample.ready)
                 (requests (handleSubmit (Sample.facing (Rejects "Failed to fetch"))
                              Sample.ready))) by (left; reflexivity).
  split; [exact H|].
  exact (proj2 (proj2 (proj2 (proj2 (proj2 (proj2 (proj2
           (issued_request_is_well_formed (Sample.facing (Rejects "Failed to fetch"))
              Sample.ready (requestOf Sample.ready) H))))))) eq_refl).
Defined.

(** ** The page *)

Lemma exchange_as_events_witness :
  (pending initialConfig = []
   /\ sendDisabled (state (withState (fun _ => Sample.ready) initialConfig)) = false)
  /\ run (Submit (Sample.facing (Sample.streaming ["He"; "llo"] Done))
           :: repeat (Resume 0) (awaits (Sample.facing (Sample.streaming ["He"; "llo"] Done))))
         (withState (fun _ => Sample.ready) initialConfig)
     = {| state := final (handleSubmit (Sample.facing (Sample.streaming ["He"; "llo"] Done))
                            Sample.ready);
          pending := [];
          sent := [] ++ requests (handleSubmit
                                    (Sample.facing (Sample.streaming ["He"; "llo"] Done))
                                    Sample.ready) |}.
Proof.
  split; [split; reflexivity|].
  exact (exchange_as_events (Sample.facing (Sample.streaming ["He"; "llo"] Done))
           (withState (fun _ => Sample.ready) initialConfig) eq_refl eq_refl).
Defined.

(** X12. Submitting the form never produces a validation warning: the
    Send button is disabled in every state in which [handleSubmit] would
    warn. A form submit either does nothing at all, or finds valid
    inputs and no exchange under way and starts one: the user's message
    is appended, [isLoading] raised, one request sent. The queue of
    notifications is the same before and after. *)
Theorem form_submit_never_warns :
  forall (c : Config) (env : Env),
    toasts (state (step c (Submit env))) = toasts (state c)
    /\ (step c (Submit env) = c
        \/ (validInputs (state c) = true
            /\ isLoading (state c) = false
            /\ step c (Submit env)
               = {| state := started (state c);
                    pending := pending c ++ [AwaitFetch env];
                    sent := sent c ++ [requestOf (state c)] |})).
Proof.
  intros c env. cbn [step]. unfold formSubmit.
  destruct (sendDisabled (state c)) eqn:Hd; [split; [reflexivity | left; reflexivity]|].
  apply sendDisabled_false in Hd as [Hl Hvalid].
  unfold callHandleSubmit. rewrite (submitHead_valid (state c) (now env) Hvalid).
  split; [reflexivity|]. right. auto.
Qed.

Section ClearWhileStreaming.

Lemma readLoop_on_empty (cs : list string) :
  forall (text : string) (s : State),
    messages s = [] -> messages (snd (readLoop cs text s)) = [].
Proof.
  induction cs as [|c cs IH]; intros text s H; [exact H|].
  cbn [readLoop onChunk]. apply IH. cbn [messages setMessages]. rewrite H. reflexivity.
Qed.

Lemma afterLoop_on_empty (env : Env) (e : StreamEnd) (text : string) (s : State) :
  messages s = [] -> messages (fst (settle env (afterLoop env e text s))) = [].
Proof.
  intros H. destruct e as [|x]; cbn [afterLoop].
  - rewrite onStreamDone_cases. destruct (allWhiteSpace text); cbn; rewrite H; reflexivity.
  - rewrite onStreamError_verdict. cbn. rewrite H. reflexivity.
Qed.

End ClearWhileStreaming.

(** X13. Clear clicked while an answer is streaming empties the
    conversation for good: the chunks that arrive afterwards update
    nothing, and however the stream ends (with an answer, blank, or by a
    failure) the exchange finishes with an empty conversation and
    [isLoading] false. *)
Theorem clear_while_streaming_loses_the_answer :
  forall (env : Env) (text : string) (rest : list string) (e : StreamEnd)
         (s : State) (out : list Request.t) (t : Z),
    messages (state (run (Clear t :: repeat (Resume 0) (S (List.length rest)))
                         (reading env text rest e s out))) = []
    /\ pending (run (Clear t :: repeat (Resume 0) (S (List.length rest)))
                    (reading env text rest e s out)) = []
    /\ isLoading (state (run (Clear t :: repeat (Resume 0) (S (List.length rest)))
                             (reading env text rest e s out))) = false.
Proof.
  intros env text rest e s out t.
  change (run (Clear t :: ?l) (reading env text rest e s out))
    with (run l (reading env text rest e (clearChat t s) out)).
  unfold reading. rewrite run_reads. cbn [state pending].
  split; [|split; [reflexivity | apply isLoading_settle]].
  apply afterLoop_on_empty, readLoop_on_empty. reflexivity.
Qed.

(** ** The earlier component *)

Section LegacyFacts.

Lemma legacy_readLoop (cs : list string) (e : StreamEnd) :
  forall (text : string) (s : State),
    Legacy.readLoop cs e text s
    = match e with
      | Done => Fallthrough (snd (readLoop cs text s))
      | ReadFails x => Thrown x (snd (readLoop cs text s))
      end.
Proof.
  induction cs as [|c cs IH]; intros text s; [destruct e; reflexivity|].
  cbn [Legacy.readLoop readLoop onChunk]. apply IH.
Qed.

Lemma legacy_valid (env : Env) (s : State) :
  validInputs s = true ->
  Legacy.handleSubmit env s = (Legacy.settle (Legacy.tryBlock env (started s)), [requestOf s]).
Proof.
  intros H. apply validInputs_fields in H as [Hk Hm].
  unfold Legacy.handleSubmit. rewrite Hk, Hm. reflexivity.
Qed.

Lemma legacy_rollback (s : State) :
  setIsLoading false
    (dropLast (setError "Failed to send message. Please check your API key and try again."
                 (started s)))
  = setIsLoading false
      (setError "Failed to send message. Please check your API key and try again." s).
Proof.
  by_cells. apply removelast_last.
Qed.

Lemma streamed_state (cs : list string) (s : State) :
  snd (readLoop cs "" (addPlaceholder (started s))) = streamed cs s.
Proof.
  rewrite (readLoop_result cs "" (addPlaceholder (started s))
             (messages s ++ [ {| role := user; content := userMessage s |} ])
             {| role := assistant; content := "" |} eq_refl eq_refl).
  reflexivity.
Qed.

End LegacyFacts.

(** X14. In the earlier component every failure of a valid submit
    shows the one fixed error text and lowers [isLoading], and removes
    the last message: when the request is rejected or the response is
    not 2xx that is the user's message, so the state is otherwise as
    before the submit; when a read fails it is the assistant's partial
    answer, so the user's message stays in the conversation. *)
Theorem legacy_failures :
  forall (env : Env) (s : State),
    validInputs s = true ->
    ((forall r, fetched env = Resolves r -> Response.ok r = false) ->
     fst (Legacy.handleSubmit env s)
     = setIsLoading false
         (setError "Failed to send message. Please check your API key and try again." s))
    /\ (forall r cs x,
          fetched env = Resolves r ->
          Response.ok r = true ->
          Response.body r = Some {| chunks := cs; ending := ReadFails x |} ->
          fst (Legacy.handleSubmit env s)
          = setIsLoading false
              (setError "Failed to send message. Please check your API key and try again."
                 (started s))).
Proof.
  intros env s Hvalid. rewrite (legacy_valid env s Hvalid). cbn [fst].
  unfold Legacy.tryBlock. split.
  - intros Hfail. destruct (fetched env) as [m|r].
    + apply legacy_rollback.
    + rewrite (Hfail r eq_refl). apply legacy_rollback.
  - intros r cs x Hf Hok Hb. rewrite Hf, Hok, Hb. cbn [negb chunks ending].
    rewrite legacy_readLoop, streamed_state. cbn [Legacy.settle].
    by_cells. apply removelast_last.
Qed.

Lemma legacy_failures_witness :
  validInputs Sample.ready = true
  /\ fst (Legacy.handleSubmit
            (Sample.facing (Sample.streaming ["Hel"] (ReadFails (JError "boom"))))
            Sample.ready)
     = setIsLoading false
         (setError "Failed to send message. Please check your API key and try again."
            (started Sample.ready)).
Proof.
  split; [reflexivity|].
  exact (proj2 (legacy_failures
                  (Sample.facing (Sample.streaming ["Hel"] (ReadFails (JError "boom"))))
                  Sample.ready eq_refl)
           _ ["Hel"] (JError "boom") eq_refl eq_refl eq_refl).
Defined.

(** X15. On a 2xx stream that completes, the earlier component keeps
    whatever was streamed, blank or not, and clears the input. When the
    answer is not blank the present component ends in that same state
    with the success notification added: the two versions differ on a
    completed stream only by the notification and by the treatment of a
    blank answer. *)
Theorem legacy_success_and_present_handler :
  forall (env : Env) (s : State) (r : Response.t) (cs : list string),
    validInputs s = true ->
    fetched env = Resolves r ->
    Response.ok r = true ->
    Response.body r = Some {| chunks := cs; ending := Done |} ->
    fst (Legacy.handleSubmit env s)
    = setIsLoading false (setUserMessage "" (streamed cs s))
    /\ messages (fst (Legacy.handleSubmit env s))
       = messages s ++ [ {| role := user; content := userMessage s |};
                         {| role := assistant; content := concatAll cs |} ]
    /\ (allWhiteSpace (concatAll cs) = false ->
        final (handleSubmit env s)
        = addToast (now env) "Message sent successfully!" TSuccess
            (fst (Legacy.handleSubmit env s))).
Proof.
  intros env s r cs Hvalid Hf Hok Hb.
  assert (E : fst (Legacy.handleSubmit env s)
              = setIsLoading false (setUserMessage "" (streamed cs s))).
  { rewrite (legacy_valid env s Hvalid). cbn [fst].
    unfold Legacy.tryBlock. rewrite Hf, Hok, Hb. cbn [negb chunks ending].
    rewrite legacy_readLoop, streamed_state. reflexivity. }
  rewrite E. split; [reflexivity|]. split.
  - cbn. rewrite <- app_assoc. reflexivity.
  - intros Hcontent.
    rewrite (streamed_answer_final env s r _ Hvalid Hf Hok Hb).
    cbn [ending chunks]. rewrite Hcontent. reflexivity.
Qed.

Lemma legacy_success_and_present_handler_witness :
  (validInputs Sample.ready = true /\ allWhiteSpace (concatAll ["Hi "; "there!"]) = false)
  /\ final (handleSubmit (Sample.facing (Sample.streaming ["Hi "; "there!"] Done)) Sample.ready)
     = addToast 1700000000000 "Message sent successfully!" TSuccess
         (fst (Legacy.handleSubmit (Sample.facing (Sample.streaming ["Hi "; "there!"] Done))
                 Sample.ready)).
Proof.
  split; [split; reflexivity|].
  exact (proj2 (proj2 (legacy_success_and_present_handler
                         (Sample.facing (Sample.streaming ["Hi "; "there!"] Done))
                         Sample.ready _ ["Hi "; "there!"] eq_refl eq_refl eq_refl eq_refl))
           eq_refl).
Defined.

(** X16. The two versions of the component accept the same submits
    and send the same request; a submit that the earlier one refuses
    changes nothing but [error], which gets the one validation text. *)
Theorem legacy_sends_the_same_request :
  forall (env : Env) (s : State),
    snd (Legacy.handleSubmit env s) = requests (handleSubmit env s)
    /\ (validInputs s = false ->
        Legacy.handleSubmit env s
        = (setError "Please enter both a message and API key" s, [])).
Proof.
  intros env s. destruct (validInputs s) eqn:Hvalid.
  - rewrite (legacy_valid env s Hvalid), (handleSubmit_valid env s Hvalid).
    split; [reflexivity | discriminate].
  - unfold Legacy.handleSubmit, handleSubmit, submitHead. unfold validInputs in Hvalid.
    destruct (isBlank (apiKey s)); [rewrite orb_true_r; split; reflexivity|].
    destruct (isBlank (userMessage s)); [split; reflexivity | discriminate Hvalid].
Qed.

Lemma legacy_sends_the_same_request_witness :
  validInputs initialState = false
  /\ Legacy.handleSubmit (Sample.facing (Rejects "unused")) initialState
     = (setError "Please enter both a message and API key" initialState, []).
Proof.
  split; [reflexivity|].
  exact (proj2 (legacy_sends_the_same_request (Sample.facing (Rejects "unused")) initialState)
           eq_refl).
Defined.

(** ** The read loop and the ids, once more *)

Section LoopFrame.

Lemma updateLast_frame (text : string) (prev : list ChatMessage) :
  List.length (updateLast text prev) = List.length prev
  /\ map role (updateLast text prev) = map role prev
  /\ removelast (updateLast text prev) = removelast prev.
Proof.
  destruct prev as [|m0 rest] eqn:E; [repeat split|].
  destruct (exists_last (l := m0 :: rest)) as [before [m Hm]]; [discriminate|].
  rewrite Hm, updateLast_last.
  rewrite !length_app, !map_app, !removelast_last. repeat split.
Qed.

End LoopFrame.

(** X17. The read loop only ever rewrites the content of the last
    message: whatever the chunks and whatever the conversation it starts
    from, the number of messages, their roles and every message but the
    last are the same after the loop as before. *)
Theorem readLoop_touches_only_the_last_content :
  forall (cs : list string) (text : string) (s : State),
    List.length (messages (snd (readLoop cs text s))) = List.length (messages s)
    /\ map role (messages (snd (readLoop cs text s))) = map role (messages s)
    /\ removelast (messages (snd (readLoop cs text s))) = removelast (messages s)
    /\ fst (readLoop cs text s) = (text ++ concatAll cs)%string.
Proof.
  induction cs as [|c cs IH]; intros text s.
  - cbn [readLoop fst snd concatAll]. rewrite append_empty_r. repeat split.
  - cbn [readLoop onChunk concatAll].
    destruct (IH (text ++ c)%string (setMessages (updateLast (text ++ c)%string) s))
      as [Hl [Hr [Hb Ha]]].
    destruct (updateLast_frame (text ++ c)%string (messages s)) as [Hl' [Hr' Hb']].
    cbn [messages setMessages] in Hl, Hr, Hb.
    rewrite Hl, Hr, Hb, Ha, Hl', Hr', Hb', append_assoc. repeat split.
Qed.

(** X18. Ids stay distinct as long as the clock does not repeat: if
    the ids in the queue are the decimal texts of distinct readings and
    the new reading is none of them, the queue after [addToast] has no
    two notifications with the same id. *)
Theorem fresh_reading_keeps_ids_distinct :
  forall (readings : list Z) (t : Z) (message : string) (type : ToastType) (s : State),
    map Toast.id (toasts s) = map ofInt readings ->
    NoDup readings ->
    ~ In t readings ->
    NoDup (map Toast.id (toasts (addToast t message type s))).
Proof.
  intros readings t message type s Hids Hnodup Hfresh.
  cbn [addToast setToasts toasts]. rewrite map_app, Hids. cbn [map Toast.id].
  change (map ofInt readings ++ [ofInt t]) with (map ofInt readings ++ map ofInt [t]).
  rewrite <- map_app.
  apply Finite.Injective_map_NoDup; [intros a b; apply ofInt_injective|].
  apply NoDup_app; [exact Hnodup | constructor; [intros []|constructor] |].
  intros a Ha [<-|[]]. contradiction.
Qed.

Lemma fresh_reading_keeps_ids_distinct_witness :
  (map Toast.id (toasts (addToast 1 "Chat cleared" TInfo Sample.ready)) = map ofInt [1%Z]
   /\ NoDup [1%Z] /\ ~ In 2%Z [1%Z])
  /\ NoDup (map Toast.id (toasts (addToast 2 "Chat cleared" TInfo
                                    (addToast 1 "Chat cleared" TInfo Sample.ready)))).
Proof.
  assert (Hn : NoDup [1%Z]) by (constructor; [intros []|constructor]).
  assert (Hf : ~ In 2%Z [1%Z]) by (intros [E|[]]; discriminate E).
  split; [split; [reflexivity | split; assumption]|].
  exact (fresh_reading_keeps_ids_distinct [1%Z] 2 "Chat cleared" TInfo
           (addToast 1 "Chat cleared" TInfo Sample.ready) eq_refl Hn Hf).
Defined.
